(** * odometryMAP: the numeric core of [src/map_creator.py]

    The acceleration pipeline ([integrate_acceleration]: [savgol_filter]
    followed by two [cumulative_trapezoid] stages) is modelled over exact
    rationals [Q], and [cumulative_trapezoid] once more over binary64 floats
    ([Integrate64]) where rounding matters; the timing statistics ([calculate_acceleration_frequency])
    and the GPS prefix filter ([filter_diverging_gps_points]) are modelled
    over the kernel's IEEE-754 binary64 floats, which are NumPy's float64:
    [np.sqrt] is the correctly rounded [PrimFloat.sqrt] and [>] is
    [PrimFloat.ltb]. Python exceptions are the [Err] branch of [result]. *)

From Stdlib Require Import String.
From Stdlib Require Import List Arith Lia ZArith QArith.
From Stdlib Require Import Floats.
From Stdlib Require Import Ascii.
Import ListNotations.

(** ** Python exceptions and the error monad *)

Inductive py_error :=
| ValueError (msg : string)
| IndexError.

Inductive result (A : Type) :=
| Ok (a : A)
| Err (e : py_error).
Arguments Ok {A} a.
Arguments Err {A} e.

Definition bind {A B} (m : result A) (k : A -> result B) : result B :=
  match m with
  | Ok a => k a
  | Err e => Err e
  end.

Notation "x <- m ;; k" := (bind m (fun x => k))
  (at level 61, m at next level, right associativity).

(** ** [scipy.integrate.cumulative_trapezoid(y, x, initial=0)]

    [d = np.diff(x)]; [res = np.cumsum(d * (y[1:] + y[:-1]) / 2.0)];
    then [initial] is concatenated in front. *)

Module Integrate.
Local Open Scope Q_scope.

Fixpoint diff (x : list Q) : list Q :=
  match x with
  | a :: (b :: _) as tl => (b - a) :: diff tl
  | _ => []
  end.

(** [y[1:] + y[:-1]] *)
Fixpoint pair_sums (y : list Q) : list Q :=
  match y with
  | a :: (b :: _) as tl => (b + a) :: pair_sums tl
  | _ => []
  end.

(** [np.cumsum]: sequential running sums, the first one being the first
    element itself. *)
Fixpoint cumsum_from (acc : Q) (l : list Q) : list Q :=
  match l with
  | [] => []
  | a :: l' => (acc + a) :: cumsum_from (acc + a) l'
  end.

Definition cumsum (l : list Q) : list Q :=
  match l with
  | [] => []
  | a :: l' => a :: cumsum_from a l'
  end.

Definition cumulative_trapezoid (y x : list Q) : result (list Q) :=
  if Nat.eqb (length y) 0 then
    Err (ValueError "At least one point is required along `axis`.")
  else
    let d := diff x in
    if negb (Nat.eqb (length d) (Nat.pred (length y))) then
      Err (ValueError "If given, length of x along axis must be the same as y.")
    else
      let res := cumsum (map (fun p => fst p * snd p / 2) (combine d (pair_sums y))) in
      Ok (0 :: res).

(** The trapezoid areas summed by [np.cumsum]. *)
Definition trapezoid_terms (y x : list Q) : list Q :=
  map (fun p => fst p * snd p / 2) (combine (diff x) (pair_sums y)).

End Integrate.

(** ** The same [cumulative_trapezoid] over NumPy's float64

    Every operation is a binary64 [PrimFloat] operation in NumPy's order:
    [d * (y[1:] + y[:-1])] then [/ 2.0], and [np.cumsum] adds left to right. *)

Module Integrate64.
Local Open Scope float_scope.

Fixpoint diff (x : list float) : list float :=
  match x with
  | a :: (b :: _) as tl => (b - a) :: diff tl
  | _ => []
  end.

Fixpoint pair_sums (y : list float) : list float :=
  match y with
  | a :: (b :: _) as tl => (b + a) :: pair_sums tl
  | _ => []
  end.

Fixpoint cumsum_from (acc : float) (l : list float) : list float :=
  match l with
  | [] => []
  | a :: l' => (acc + a) :: cumsum_from (acc + a) l'
  end.

Definition cumsum (l : list float) : list float :=
  match l with
  | [] => []
  | a :: l' => a :: cumsum_from a l'
  end.

Definition cumulative_trapezoid (y x : list float) : result (list float) :=
  if Nat.eqb (length y) 0 then
    Err (ValueError "At least one point is required along `axis`.")
  else
    let d := diff x in
    if negb (Nat.eqb (length d) (Nat.pred (length y))) then
      Err (ValueError "If given, length of x along axis must be the same as y.")
    else
      let res := cumsum (map (fun p => fst p * snd p / 2) (combine d (pair_sums y))) in
      Ok (0 :: res).

(** The float64 running sums [a], [a + a], [(a + a) + a], ... that
    [np.cumsum] forms from a constant term [a]: [running_sum a i] has
    [i + 1] terms. *)
Fixpoint running_sum (a : float) (i : nat) : float :=
  match i with
  | O => a
  | S i' => running_sum a i' + a
  end.

End Integrate64.

(** ** [scipy.signal.savgol_filter(x, 7, 3)] (default [mode='interp'])

    The least-squares cubic fit over a window of 7 samples is the linear map
    whose matrix is the hat matrix [X (X^T X)^-1 X^T] of the Vandermonde
    matrix [X] of the positions 0..6; its entries are multiples of 1/42.
    Samples 3 .. n-4 use the central row (the convolution
    [(-2, 3, 6, 7, 6, 3, -2)/21]); [_fit_edge] replaces the first three by
    rows 0..2 of the fit over [x[0:7]] and the last three by rows 4..6 of
    the fit over [x[n-7:n]]. *)

Module Savgol.
Local Open Scope Q_scope.

Definition window_length : nat := 7.
Definition polyorder : nat := 3.

Definition row42 (r : list Z) : list Q := map (fun z => Qmake z 42) r.

Definition hat_rows : list (list Q) := map row42
  [ [39; 8; -4; -4; 1; 4; -2]%Z;
    [8; 19; 16; 6; -4; -7; 4]%Z;
    [-4; 16; 19; 12; 2; -4; 1]%Z;
    [-4; 6; 12; 14; 12; 6; -4]%Z;
    [1; -4; 2; 12; 19; 16; -4]%Z;
    [4; -7; -4; 6; 16; 19; 8]%Z;
    [-2; 4; 1; -4; -4; 8; 39]%Z ].

Definition dot (c w : list Q) : Q :=
  fold_left Qplus (map (fun p => fst p * snd p) (combine c w)) 0.

Definition savgol_point (x : list Q) (n i : nat) : Q :=
  if Nat.ltb i 3 then dot (nth i hat_rows []) (firstn 7 x)
  else if Nat.leb (n - 3) i then dot (nth (i - (n - 7)) hat_rows []) (skipn (n - 7) x)
  else dot (nth 3 hat_rows []) (firstn 7 (skipn (i - 3) x)).

Definition savgol_filter (x : list Q) : result (list Q) :=
  if Nat.ltb (length x) window_length then
    Err (ValueError "If mode is 'interp', window_length must be less than or equal to the size of x.")
  else
    Ok (map (savgol_point x (length x)) (seq 0 (length x))).

End Savgol.

(** ** [integrate_acceleration(csv_path)]

    The CSV is read by pandas into a data frame; its rows are the input here,
    so the columns [t], [ax], [ay], [az] always have one length. *)

Record accel_row := {
  time_s : Q;
  accel_x : Q;
  accel_y : Q;
  accel_z : Q }.

Definition integrate_acceleration (df : list accel_row)
  : result (list Q * list Q * list Q * nat) :=
  let t := map time_s df in
  let ax := map accel_x df in
  let ay := map accel_y df in
  let az := map accel_z df in
  ax <- Savgol.savgol_filter ax ;;
  ay <- Savgol.savgol_filter ay ;;
  az <- Savgol.savgol_filter az ;;
  vx <- Integrate.cumulative_trapezoid ax t ;;
  vy <- Integrate.cumulative_trapezoid ay t ;;
  vz <- Integrate.cumulative_trapezoid az t ;;
  dx <- Integrate.cumulative_trapezoid vx t ;;
  dy <- Integrate.cumulative_trapezoid vy t ;;
  dz <- Integrate.cumulative_trapezoid vz t ;;
  Ok (dx, dy, dz, length t).

(** ** Float helpers *)

Module Py.
Local Open Scope float_scope.

(** Python's [float(n)] for an [int]: the binary64 value nearest to [n]. *)
Definition float_of_nat (n : nat) : float :=
  SF2Prim (binary_normalize prec emax (Z.of_nat n) 0%Z false).

(** [seq[-1]] on a nonempty list. *)
Definition last_elem (l : list float) : float := last l 0.

End Py.

(** ** [calculate_acceleration_frequency(csv_path)] on the [Time (s)] column *)

Definition calculate_acceleration_frequency (times : list float) : float * nat :=
  match times with
  | t0 :: _ :: _ =>
      let avg_interval :=
        ((Py.last_elem times - t0) / Py.float_of_nat (length times - 1))%float in
      let frequency := if (0 <? avg_interval)%float then (1 / avg_interval)%float else 0%float in
      (frequency, length times)
  | _ => (0%float, length times)
  end.

(** ** [filter_diverging_gps_points(latitudes, longitudes, max_points_to_check=10)] *)

Module Divergence.
Local Open Scope float_scope.

(** [latitudes[i]] raising [IndexError] out of range. *)
Definition index (l : list float) (i : nat) : result float :=
  match nth_error l i with
  | Some v => Ok v
  | None => Err IndexError
  end.

(** One iteration of the distance loop:
    [np.sqrt(lat_diff**2 + lon_diff**2)]. *)
Definition step_distance (latitudes longitudes : list float) (i : nat) : result float :=
  la <- index latitudes i ;;
  lb <- index latitudes (i - 1) ;;
  oa <- index longitudes i ;;
  ob <- index longitudes (i - 1) ;;
  let lat_diff := la - lb in
  let lon_diff := oa - ob in
  Ok (sqrt (lat_diff * lat_diff + lon_diff * lon_diff)).

(** [distances.append(...)] over the list of loop indices. *)
Fixpoint collect (latitudes longitudes : list float) (is : list nat) : result (list float) :=
  match is with
  | [] => Ok []
  | i :: is' =>
      d <- step_distance latitudes longitudes i ;;
      ds <- collect latitudes longitudes is' ;;
      Ok (d :: ds)
  end.

(** [for i in range(1, min(max_points_to_check + 1, len(latitudes)))] *)
Definition loop_indices (max_points_to_check n : nat) : list nat :=
  seq 1 (Nat.min (max_points_to_check + 1) n - 1).

Definition consecutive_distances (latitudes longitudes : list float)
    (max_points_to_check : nat) : result (list float) :=
  collect latitudes longitudes (loop_indices max_points_to_check (length latitudes)).

(** [np.median]: NaN if any element is NaN; otherwise the middle element of
    the sorted values, or the mean of the two middle ones. *)
Fixpoint insert (x : float) (l : list float) : list float :=
  match l with
  | [] => [x]
  | y :: l' => if x <=? y then x :: l else y :: insert x l'
  end.

Fixpoint sort (l : list float) : list float :=
  match l with
  | [] => []
  | x :: l' => insert x (sort l')
  end.

Definition median (l : list float) : float :=
  if existsb is_nan l then nan
  else
    let s := sort l in
    let n := length s in
    if Nat.even n then (nth (n / 2 - 1) s 0 + nth (n / 2) s 0) / 2
    else nth (n / 2) s 0.

(** The scan: [points_to_remove = i + 1] while [distance > threshold],
    [break] at the first distance that does not exceed it. *)
Fixpoint scan (threshold : float) (distances : list float) (i points_to_remove : nat) : nat :=
  match distances with
  | [] => points_to_remove
  | distance :: ds =>
      if threshold <? distance then scan threshold ds (S i) (S i)
      else points_to_remove
  end.

(** The [print] of the removal message is output only and is not modelled. *)
Definition filter_diverging_gps_points (latitudes longitudes : list float)
    (max_points_to_check : nat) : result (list float * list float * nat) :=
  if Nat.ltb (length latitudes) max_points_to_check then
    Ok (latitudes, longitudes, 0%nat)
  else
    distances <- consecutive_distances latitudes longitudes max_points_to_check ;;
    if Nat.ltb (length distances) 3 then Ok (latitudes, longitudes, 0%nat)
    else
      let median_distance := median distances in
      let threshold := 2 * median_distance in
      let points_to_remove := scan threshold distances 0 0 in
      if Nat.ltb 0 points_to_remove then
        Ok (skipn points_to_remove latitudes, skipn points_to_remove longitudes,
            points_to_remove)
      else Ok (latitudes, longitudes, 0%nat).

(** The reading of the spec (section 4.5) that the source is compared
    with: step distances read by position, the leading run of distances
    above the threshold, and the prefix cut it determines. *)
Definition spec_step_distance (latitudes longitudes : list float) (i : nat) : float :=
  let lat_diff := nth i latitudes 0 - nth (i - 1) latitudes 0 in
  let lon_diff := nth i longitudes 0 - nth (i - 1) longitudes 0 in
  sqrt (lat_diff * lat_diff + lon_diff * lon_diff).

Definition spec_distances (latitudes longitudes : list float) (k : nat) : list float :=
  map (spec_step_distance latitudes longitudes) (seq 1 k).

Fixpoint leading_run (threshold : float) (distances : list float) : nat :=
  match distances with
  | [] => 0
  | d :: ds => if threshold <? d then S (leading_run threshold ds) else 0
  end.

Definition spec_filter (latitudes longitudes : list float) (max_points_to_check : nat)
  : list float * list float * nat :=
  if Nat.ltb (length latitudes) max_points_to_check then (latitudes, longitudes, 0%nat)
  else
    let ds := spec_distances latitudes longitudes
                (Nat.min max_points_to_check (length latitudes - 1)) in
    if Nat.ltb (length ds) 3 then (latitudes, longitudes, 0%nat)
    else
      let k := leading_run (2 * median ds) ds in
      (skipn k latitudes, skipn k longitudes, k).

End Divergence.

(** ** Python dicts: association lists in insertion order

    [d[k] = v] replaces the value of a key in place and appends a new key
    at the end; [d.get(k, default)] looks the key up. *)

Module PyDict.

Definition dict (V : Type) := list (string * V).

Fixpoint get {V} (d : dict V) (k : string) : option V :=
  match d with
  | [] => None
  | (k', v) :: d' => if String.eqb k k' then Some v else get d' k
  end.

Definition get_default {V} (d : dict V) (k : string) (default : V) : V :=
  match get d k with
  | Some v => v
  | None => default
  end.

Fixpoint setitem {V} (d : dict V) (k : string) (v : V) : dict V :=
  match d with
  | [] => [(k, v)]
  | (k', v') :: d' => if String.eqb k k' then (k', v) :: d' else (k', v') :: setitem d' k v
  end.

Definition keys {V} (d : dict V) : list string := map fst d.

End PyDict.

(** ** [parse_device_info(device_csv_path)]: one [device_info[row['property']] = row['value']]
    per row of [meta/device.csv], in row order. *)

Record device_row := {
  property : string;
  value : string }.

Definition parse_device_info (df : list device_row) : PyDict.dict string :=
  fold_left (fun device_info row => PyDict.setitem device_info (property row) (value row))
            df [].

(** ** [parse_time_info(time_csv_path)] over the rows of [meta/time.csv]; the
    dict holds the text column [system time text] and the float column
    [experiment time]. *)

Record time_row := {
  event : string;
  system_time_text : string;
  experiment_time : float }.

Inductive time_value :=
| TText (s : string)
| TNum (f : float).

Definition parse_time_row (time_info : PyDict.dict time_value) (row : time_row)
  : PyDict.dict time_value :=
  if String.eqb (event row) "START" then
    PyDict.setitem time_info "start_time" (TText (system_time_text row))
  else if String.eqb (event row) "PAUSE" then
    PyDict.setitem (PyDict.setitem time_info "end_time" (TText (system_time_text row)))
      "duration" (TNum (experiment_time row))
  else time_info.

Definition parse_time_info (df : list time_row) : PyDict.dict time_value :=
  fold_left parse_time_row df [].

(** ** [str.split(sep)] and [str.replace(old, new)] for one-character
    arguments (the file names are ASCII). *)

Module PyStr.

Fixpoint split (sep : ascii) (s : string) : list string :=
  match s with
  | EmptyString => [EmptyString]
  | String c s' =>
      let parts := split sep s' in
      if Ascii.eqb c sep then EmptyString :: parts
      else match parts with
           | p :: ps => String c p :: ps
           | [] => [String c EmptyString]
           end
  end.

Fixpoint replace (old new : ascii) (s : string) : string :=
  match s with
  | EmptyString => EmptyString
  | String c s' => String (if Ascii.eqb c old then new else c) (replace old new s')
  end.

Fixpoint contains (c : ascii) (s : string) : bool :=
  match s with
  | EmptyString => false
  | String c' s' => Ascii.eqb c' c || contains c s'
  end.

End PyStr.

(** The date and time shown in the page, from [create_enhanced_map]:
    [date_parts = file_name.split('_')]; [date_str = date_parts[0]];
    [time_str = date_parts[1].replace('-', ':')]. *)
Definition parse_file_name (file_name : string) : result (string * string) :=
  let date_parts := PyStr.split "_"%char file_name in
  match date_parts with
  | date_str :: part1 :: _ => Ok (date_str, PyStr.replace "-"%char ":"%char part1)
  | _ => Err IndexError
  end.

(** ** The GPS part of [create_enhanced_map]

    In code order: the prefix filter, [coords = list(zip(latitudes, longitudes))],
    the map centre [sum(latitudes) / len(latitudes)] (a [ZeroDivisionError]
    on an empty series, [sum] starting from 0), [folium.Map(location=[center_lat,
    center_lon])], [folium.PolyLine(locations=coords)] and the markers
    [folium.Marker(coords[0])] and [folium.Marker(coords[-1])]; the returned
    [gps_points] and [removed_points]. Folium checks every location it is
    given with [validate_location], which raises [ValueError] on a NaN
    coordinate ([validate_locations] also refuses an empty list). The
    acceleration, metadata and HTML steps run in between and are left out of
    this projection. *)

Inductive map_error :=
| PyErr (e : py_error)
| ZeroDivisionError.

Definition py_mean (l : list float) : option float :=
  match l with
  | [] => None
  | _ => Some (fold_left PrimFloat.add l 0%float / Py.float_of_nat (length l))%float
  end.

Definition nan_location_error : py_error :=
  ValueError "Location values cannot contain NaNs.".

Definition location_ok (p : float * float) : bool :=
  negb (PrimFloat.is_nan (fst p) || PrimFloat.is_nan (snd p)).

(** [folium.utilities.validate_location] on a pair of floats. *)
Definition validate_location (p : float * float) : result (float * float) :=
  if location_ok p then Ok p else Err nan_location_error.

Fixpoint validate_each (ps : list (float * float)) : result (list (float * float)) :=
  match ps with
  | [] => Ok []
  | p :: ps' =>
      q <- validate_location p ;;
      qs <- validate_each ps' ;;
      Ok (q :: qs)
  end.

(** [folium.utilities.validate_locations] on a list of pairs. *)
Definition validate_locations (ps : list (float * float)) : result (list (float * float)) :=
  match ps with
  | [] => Err (ValueError "Locations is empty.")
  | _ => validate_each ps
  end.

Record gps_track := {
  coords : list (float * float);
  center_lat : float;
  center_lon : float;
  start_marker : float * float;
  end_marker : float * float;
  gps_points : nat;
  removed_points : nat }.

Definition gps_track_of (raw_latitudes raw_longitudes : list float) : map_error + gps_track :=
  match Divergence.filter_diverging_gps_points raw_latitudes raw_longitudes 10 with
  | Err e => inl (PyErr e)
  | Ok (latitudes, longitudes, removed) =>
      let cs := combine latitudes longitudes in
      match py_mean latitudes, py_mean longitudes with
      | Some clat, Some clon =>
          match validate_location (clat, clon) with
          | Err e => inl (PyErr e)
          | Ok _ =>
              match validate_locations cs with
              | Err e => inl (PyErr e)
              | Ok _ =>
                  match cs with
                  | [] => inl (PyErr IndexError)
                  | c0 :: _ =>
                      match validate_location c0, validate_location (last cs c0) with
                      | Ok _, Ok _ =>
                          inr {| coords := cs; center_lat := clat; center_lon := clon;
                                 start_marker := c0; end_marker := last cs c0;
                                 gps_points := length cs; removed_points := removed |}
                      | Err e, _ => inl (PyErr e)
                      | _, Err e => inl (PyErr e)
                      end
                  end
              end
          end
      | _, _ => inl ZeroDivisionError
      end
  end.

(** * Test inputs *)

(** Non-monotonic timestamps: 0, 2, 1, 3, 4, 5, 6, with unit acceleration
    on every axis. *)
Definition df_non_monotonic : list accel_row :=
  map (fun t => {| time_s := inject_Z t; accel_x := 1; accel_y := 1; accel_z := 1 |})
      [0; 2; 1; 3; 4; 5; 6]%Z.

(** [meta/device.csv] rows with a repeated property. *)
Definition device_model_1 : device_row := {| property := "deviceModel"; value := "M1" |}%string.
Definition device_model_2 : device_row := {| property := "deviceModel"; value := "M2" |}%string.
Definition device_brand : device_row := {| property := "deviceBrand"; value := "B" |}%string.
Definition device_sample : list device_row := [device_model_1; device_model_2; device_brand].

(** A file name in the [date_time_suffix] layout. *)
Definition file_name_sample : string := "2024-05-01_12-30-00_run"%string.

Local Open Scope float_scope.

(** Test tracks (latitude varies, longitude fixed, so each step distance is
    the latitude step). *)
Definition lat_three_outliers : list float :=
  [0; 100; 200; 300; 301; 302; 303; 304; 305; 306].
Definition lat_boundary : list float := [0; 2; 3; 4; 5; 6; 7; 8; 9; 10].
Definition lat_shifting_median : list float :=
  [0; 10; 13.5; 14.5; 15.5; 16.5; 17.5; 19.5; 21.5; 23.5; 25.5; 26.5].
Definition lat_short : list float := [0; 1; 2; 3; 4].
Definition fixed_lon (l : list float) : list float := map (fun _ => 0) l.

(** [meta/time.csv]: start, pause, and a restart that never pauses. *)
Definition time_start_1 : time_row :=
  {| event := "START"; system_time_text := "10:00:00"; experiment_time := 0 |}%string.
Definition time_pause_1 : time_row :=
  {| event := "PAUSE"; system_time_text := "10:05:00"; experiment_time := 300 |}%string.
Definition time_start_2 : time_row :=
  {| event := "START"; system_time_text := "10:06:00"; experiment_time := 300 |}%string.
Definition time_sample : list time_row := [time_start_1; time_pause_1; time_start_2].

Local Close Scope float_scope.

(** * Properties of the trapezoidal integration *)

Module IntegrateFacts.
Import Integrate.
Local Open Scope Q_scope.

Lemma diff_length (x : list Q) : length (diff x) = Nat.pred (length x).
Proof.
  induction x as [| a x IH]; [reflexivity |].
  destruct x as [| b x]; [reflexivity |].
  simpl in *. rewrite IH. reflexivity.
Qed.

Lemma pair_sums_length (y : list Q) : length (pair_sums y) = Nat.pred (length y).
Proof.
  induction y as [| a y IH]; [reflexivity |].
  destruct y as [| b y]; [reflexivity |].
  simpl in *. rewrite IH. reflexivity.
Qed.

Lemma cumsum_from_length (acc : Q) (l : list Q) : length (cumsum_from acc l) = length l.
Proof. revert acc; induction l; simpl; auto. Qed.

Lemma cumsum_length (l : list Q) : length (cumsum l) = length l.
Proof. destruct l; simpl; [reflexivity | now rewrite cumsum_from_length]. Qed.

Lemma cumsum_from_step (l : list Q) :
  forall acc i, (S i < length l)%nat ->
  nth (S i) (cumsum_from acc l) 0 = nth i (cumsum_from acc l) 0 + nth (S i) l 0.
Proof.
  induction l as [| a l IH]; intros acc i Hi; simpl in Hi; [lia |].
  destruct l as [| b l]; simpl in Hi; [lia |].
  destruct i as [| i].
  - reflexivity.
  - simpl. apply IH. simpl. lia.
Qed.

(** [np.cumsum] satisfies [res[i+1] = res[i] + l[i+1]]. *)
Lemma cumsum_step (l : list Q) (i : nat) :
  (S i < length l)%nat ->
  nth (S i) (cumsum l) 0 = nth i (cumsum l) 0 + nth (S i) l 0.
Proof.
  destruct l as [| a l]; simpl; intro Hi; [lia |].
  destruct i as [| i].
  - destruct l; simpl in *; [lia | reflexivity].
  - apply cumsum_from_step. lia.
Qed.

Lemma cumsum_head (a : Q) (l : list Q) : nth 0 (cumsum (a :: l)) 0 = a.
Proof. reflexivity. Qed.

Lemma trapezoid_terms_nth (y x : list Q) (i : nat) :
  length x = length y -> (S i < length y)%nat ->
  nth i (trapezoid_terms y x) 0 =
  (nth (S i) x 0 - nth i x 0) * (nth (S i) y 0 + nth i y 0) / 2.
Proof.
  unfold trapezoid_terms. revert x i.
  induction y as [| a y IH]; intros x i Hl Hi; simpl in Hi; [lia |].
  destruct x as [| xa x]; simpl in Hl; [lia |].
  destruct y as [| b y]; simpl in Hi; [lia |].
  destruct x as [| xb x]; simpl in Hl; [lia |].
  destruct i as [| i]; [reflexivity |].
  simpl. apply (IH (xb :: x) i); simpl; lia.
Qed.

Lemma trapezoid_terms_length (y x : list Q) :
  length x = length y -> length (trapezoid_terms y x) = Nat.pred (length y).
Proof.
  intro H. unfold trapezoid_terms. rewrite length_map, length_combine,
    diff_length, pair_sums_length, H. lia.
Qed.

(** The trapezoidal recurrence of [cumulative_trapezoid(v, t, initial=0)]. *)
Lemma cumulative_trapezoid_spec (v t : list Q) :
  (1 <= length v)%nat -> length t = length v ->
  exists out, cumulative_trapezoid v t = Ok out /\
    length out = length v /\ nth 0 out 0 = 0 /\
    (forall i, (0 < i < length v)%nat ->
       nth i out 0 == nth (i - 1) out 0
                      + (nth i t 0 - nth (i - 1) t 0) * (nth i v 0 + nth (i - 1) v 0) / 2).
Proof.
  intros Hn Hl.
  exists (0 :: cumsum (trapezoid_terms v t)).
  unfold cumulative_trapezoid.
  destruct (Nat.eqb_spec (length v) 0) as [E | _]; [lia |].
  rewrite diff_length, Hl, Nat.eqb_refl. simpl.
  split; [reflexivity |].
  split; [rewrite cumsum_length, trapezoid_terms_length; lia |].
  split; [reflexivity |].
  intros i Hi.
  destruct i as [| i]; [lia |].
  replace (S i - 1)%nat with i by lia.
  assert (Hlen : length (trapezoid_terms v t) = Nat.pred (length v))
    by (apply trapezoid_terms_length; exact Hl).
  destruct i as [| j].
  - simpl nth at 2.
    destruct (trapezoid_terms v t) as [| a l] eqn:E; simpl in Hlen; [lia |].
    rewrite cumsum_head, <- (trapezoid_terms_nth v t 0 Hl) by lia.
    rewrite E. simpl. ring.
  - change (nth (S (S j)) (0 :: cumsum (trapezoid_terms v t)) 0)
      with (nth (S j) (cumsum (trapezoid_terms v t)) 0).
    change (nth (S j) (0 :: cumsum (trapezoid_terms v t)) 0)
      with (nth j (cumsum (trapezoid_terms v t)) 0).
    rewrite cumsum_step by lia.
    rewrite (trapezoid_terms_nth v t (S j) Hl) by lia.
    reflexivity.
Qed.

End IntegrateFacts.

(** * Properties of the smoothing stage *)

Module SavgolFacts.
Import Savgol.

Lemma savgol_filter_err (x : list Q) :
  (exists e, savgol_filter x = Err e) <-> (length x < window_length)%nat.
Proof.
  unfold savgol_filter.
  destruct (Nat.ltb_spec (length x) window_length) as [H | H]; split.
  - intros _; exact H.
  - intros _; eexists; reflexivity.
  - intros [e E]; discriminate E.
  - intro H'; lia.
Qed.

Lemma savgol_filter_ok_length (x y : list Q) :
  savgol_filter x = Ok y -> length y = length x.
Proof.
  unfold savgol_filter. destruct (Nat.ltb (length x) window_length); [discriminate |].
  intro E; injection E as <-. rewrite length_map, length_seq. reflexivity.
Qed.

Lemma savgol_filter_long (x : list Q) :
  (window_length <= length x)%nat -> exists y, savgol_filter x = Ok y /\ length y = length x.
Proof.
  intro H. unfold savgol_filter.
  destruct (Nat.ltb_spec (length x) window_length) as [H' | _]; [lia |].
  eexists; split; [reflexivity |]. rewrite length_map, length_seq; reflexivity.
Qed.

End SavgolFacts.

(** A successful [cumulative_trapezoid] stage, as used twice per axis. *)
Lemma cumulative_trapezoid_ok (v t : list Q) :
  (1 <= length v)%nat -> length t = length v ->
  exists out, Integrate.cumulative_trapezoid v t = Ok out /\
              length out = length v /\ nth 0 out 0%Q = 0%Q.
Proof.
  intros H1 H2. destruct (IntegrateFacts.cumulative_trapezoid_spec v t H1 H2)
    as (out & E & L & Z0 & _).
  exists out; auto.
Qed.

(** One axis of [integrate_acceleration]: smoothing, then two integrations. *)
Lemma axis_pipeline (a t : list Q) :
  (Savgol.window_length <= length a)%nat -> length t = length a ->
  exists s v d, Savgol.savgol_filter a = Ok s /\
    Integrate.cumulative_trapezoid s t = Ok v /\
    Integrate.cumulative_trapezoid v t = Ok d /\
    length d = length a /\ nth 0 d 0%Q = 0%Q.
Proof.
  intros Hw Ht.
  destruct (SavgolFacts.savgol_filter_long a Hw) as (s & Es & Ls).
  unfold Savgol.window_length in Hw.
  destruct (cumulative_trapezoid_ok s t) as (v & Ev & Lv & _); [lia | lia |].
  destruct (cumulative_trapezoid_ok v t) as (d & Ed & Ld & Zd); [lia | lia |].
  exists s, v, d. repeat split; auto. lia.
Qed.


(** * The acceleration pipeline *)

Local Open Scope Q_scope.

Lemma nth_map_seq (f : nat -> Q) (n i : nat) (d : Q) :
  (i < n)%nat -> nth i (map f (seq 0 n)) d = f i.
Proof.
  intro H. rewrite (nth_indep _ d (f 0%nat)) by (rewrite length_map, length_seq; lia).
  rewrite map_nth, seq_nth by lia. reflexivity.
Qed.

(** C2: for a signal [v] of [n >= 1] samples with timestamps [t],
    [cumulative_trapezoid(v, t, initial=0)] returns [n] values, the first
    exactly 0, each later one the previous plus
    [(t[i]-t[i-1])*(v[i]+v[i-1])/2]; one sample gives [[0]]. *)
Theorem cumulative_trapezoid_rule (v t : list Q) :
  (1 <= length v)%nat -> length t = length v ->
  exists out, Integrate.cumulative_trapezoid v t = Ok out /\
    length out = length v /\ nth 0 out 0 = 0 /\
    (forall i, (0 < i < length v)%nat ->
       nth i out 0 == nth (i - 1) out 0
                      + (nth i t 0 - nth (i - 1) t 0) * (nth i v 0 + nth (i - 1) v 0) / 2) /\
    (length v = 1%nat -> out = [0]).
Proof.
  intros H1 H2.
  destruct (IntegrateFacts.cumulative_trapezoid_spec v t H1 H2) as (out & E & L & Z0 & R).
  exists out. repeat split; auto.
  intro H. rewrite H in L.
  destruct out as [| a [| b out]]; simpl in L; try discriminate.
  simpl in Z0. now rewrite Z0.
Qed.

Lemma cumulative_trapezoid_rule_witness :
  (1 <= length [1; 2; 3])%nat /\ length [0; 1; 3] = length [1; 2; 3] /\
  exists out, Integrate.cumulative_trapezoid [1; 2; 3] [0; 1; 3] = Ok out /\
    length out = length [1; 2; 3] /\ nth 0 out 0 = 0 /\
    (forall i, (0 < i < length [1; 2; 3])%nat ->
       nth i out 0 == nth (i - 1) out 0
                      + (nth i [0; 1; 3] 0 - nth (i - 1) [0; 1; 3] 0)
                        * (nth i [1; 2; 3] 0 + nth (i - 1) [1; 2; 3] 0) / 2) /\
    (length [1; 2; 3] = 1%nat -> out = [0]).
Proof.
  split; [simpl; lia |]. split; [reflexivity |].
  apply cumulative_trapezoid_rule; simpl; [lia | reflexivity].
Defined.

(** Decimal literals below denote the nearest binary64 value, as in Python. *)
Set Warnings "-inexact-float".

Module Integrate64Facts.
Import Integrate64.
Local Open Scope float_scope.

Lemma diff_const (x : list float) (h : float) (n : nat) :
  length x = S n -> (forall k, (S k < S n)%nat -> nth (S k) x 0 - nth k x 0 = h) ->
  diff x = repeat h n.
Proof.
  revert x. induction n as [| n IH]; intros x Hl Hd.
  - destruct x as [| a [| b x]]; simpl in Hl; try lia. reflexivity.
  - destruct x as [| a [| b x]]; simpl in Hl; try lia.
    change (diff (a :: b :: x)) with ((b - a) :: diff (b :: x)).
    rewrite (IH (b :: x)); [| simpl; lia |].
    + specialize (Hd 0%nat ltac:(lia)). simpl in Hd. rewrite Hd. reflexivity.
    + intros k Hk. exact (Hd (S k) ltac:(lia)).
Qed.

Lemma pair_sums_repeat (c : float) (n : nat) : pair_sums (repeat c (S n)) = repeat (c + c) n.
Proof.
  induction n as [| n IH]; [reflexivity |].
  transitivity ((c + c) :: pair_sums (repeat c (S n))); [reflexivity |].
  rewrite IH. reflexivity.
Qed.

Lemma map_combine_repeat {A B C} (f : A * B -> C) (a : A) (b : B) (n : nat) :
  map f (combine (repeat a n) (repeat b n)) = repeat (f (a, b)) n.
Proof. induction n as [| n IH]; simpl; [reflexivity | rewrite IH; reflexivity]. Qed.

Lemma cumsum_from_length64 (acc : float) (l : list float) :
  length (cumsum_from acc l) = length l.
Proof. revert acc. induction l as [| a l IH]; intro acc; simpl; [reflexivity | rewrite IH; reflexivity]. Qed.

Lemma cumsum_length64 (l : list float) : length (cumsum l) = length l.
Proof. destruct l as [| a l]; simpl; [reflexivity | rewrite cumsum_from_length64; reflexivity]. Qed.

Lemma cumsum_from_repeat (a : float) (j n i : nat) :
  (i < n)%nat ->
  nth i (cumsum_from (running_sum a j) (repeat a n)) 0 = running_sum a (S (j + i)).
Proof.
  revert j i. induction n as [| n IH]; intros j i Hi; [lia |].
  change (cumsum_from (running_sum a j) (repeat a (S n)))
    with (running_sum a (S j) :: cumsum_from (running_sum a (S j)) (repeat a n)).
  destruct i as [| i].
  - rewrite Nat.add_0_r. reflexivity.
  - cbn [nth]. rewrite IH by lia. rewrite Nat.add_succ_r. reflexivity.
Qed.

End Integrate64Facts.

(** C4 refuted: with NumPy's float64 the trapezoid sums are rounded. A
    constant [0.1] at the timestamps [0, 1, ..., 10] gives
    [0.7999999999999999] at index 8 and [0.9999999999999999] at index 10,
    not [c*h*i = 0.8] and [1.0]. *)
Lemma cumulative_trapezoid_constant_rounding :
  exists out,
    Integrate64.cumulative_trapezoid (repeat 0.1%float 11) (map Py.float_of_nat (seq 0 11))
      = Ok out /\
    nth 8 out 0%float = 0.7999999999999999%float /\ nth 8 out 0%float <> 0.8%float /\
    nth 10 out 0%float = 0.9999999999999999%float /\ nth 10 out 0%float <> 1%float.
Proof.
  let r := eval vm_compute in
    (Integrate64.cumulative_trapezoid (repeat 0.1%float 11) (map Py.float_of_nat (seq 0 11))) in
  lazymatch r with
  | Ok ?o => exists o
  end.
  split; [vm_compute; reflexivity |].
  split; [vm_compute; reflexivity |].
  split; [intro H; apply (f_equal Prim2SF) in H; vm_compute in H; discriminate H |].
  split; [vm_compute; reflexivity |].
  intro H; apply (f_equal Prim2SF) in H; vm_compute in H; discriminate H.
Qed.

(** C4, as the float64 code behaves: for a constant signal [c] over [n >= 1]
    timestamps whose float differences all equal [h],
    [cumulative_trapezoid(v, t, initial=0)] returns [n] values: 0, then the
    float64 running sums [a], [a + a], [(a + a) + a], ... of the one
    trapezoid term [a = h * (c + c) / 2]. These equal [c*h*i] only up to
    rounding. *)
Theorem cumulative_trapezoid_constant_float (c h : float) (t : list float) (n : nat) :
  (1 <= n)%nat -> length t = n ->
  (forall k, (S k < n)%nat -> (nth (S k) t 0 - nth k t 0)%float = h) ->
  exists out, Integrate64.cumulative_trapezoid (repeat c n) t = Ok out /\
    length out = n /\ nth 0 out 0%float = 0%float /\
    forall i, (S i < n)%nat ->
      nth (S i) out 0%float = Integrate64.running_sum (h * (c + c) / 2)%float i.
Proof.
  intros Hn Hl Hd. destruct n as [| m]; [lia |].
  unfold Integrate64.cumulative_trapezoid.
  rewrite repeat_length, (Integrate64Facts.diff_const t h m Hl Hd), repeat_length,
    Nat.eqb_refl, Integrate64Facts.pair_sums_repeat, Integrate64Facts.map_combine_repeat.
  cbn [Nat.eqb negb fst snd]. cbv zeta.
  set (a := (h * (c + c) / 2)%float).
  eexists. split; [reflexivity |].
  split; [simpl; rewrite Integrate64Facts.cumsum_length64, repeat_length; reflexivity |].
  split; [reflexivity |].
  intros i Hi. cbn [nth].
  destruct m as [| m]; [lia |].
  change (Integrate64.cumsum (repeat a (S m))) with (a :: Integrate64.cumsum_from a (repeat a m)).
  destruct i as [| i]; [reflexivity |].
  exact (Integrate64Facts.cumsum_from_repeat a 0 m i ltac:(lia)).
Qed.

Lemma cumulative_trapezoid_constant_float_witness :
  (1 <= 11)%nat /\ length (map Py.float_of_nat (seq 0 11)) = 11%nat /\
  (forall k, (S k < 11)%nat ->
     (nth (S k) (map Py.float_of_nat (seq 0 11)) 0 - nth k (map Py.float_of_nat (seq 0 11)) 0)%float
     = 1%float) /\
  exists out,
    Integrate64.cumulative_trapezoid (repeat 0.1%float 11) (map Py.float_of_nat (seq 0 11)) = Ok out /\
    length out = 11%nat /\ nth 0 out 0%float = 0%float /\
    forall i, (S i < 11)%nat ->
      nth (S i) out 0%float = Integrate64.running_sum (1 * (0.1 + 0.1) / 2)%float i.
Proof.
  assert (H1 : (1 <= 11)%nat) by lia.
  assert (H2 : length (map Py.float_of_nat (seq 0 11)) = 11%nat) by reflexivity.
  assert (H3 : forall k, (S k < 11)%nat ->
     (nth (S k) (map Py.float_of_nat (seq 0 11)) 0 - nth k (map Py.float_of_nat (seq 0 11)) 0)%float
     = 1%float).
  { intros k Hk. do 10 (destruct k as [| k]; [vm_compute; reflexivity |]). lia. }
  split; [exact H1 | split; [exact H2 | split; [exact H3 |]]].
  exact (cumulative_trapezoid_constant_float 0.1%float 1%float _ 11 H1 H2 H3).
Defined.

(** C3: [savgol_filter(x, 7, 3)] keeps the length of its input and raises
    (the spec's InsufficientSamples) exactly when the input has fewer than
    7 samples; [integrate_acceleration] then raises the same error. *)
Theorem savgol_insufficient_samples :
  (forall x, (exists e, Savgol.savgol_filter x = Err e) <->
             (length x < Savgol.window_length)%nat) /\
  (forall x y, Savgol.savgol_filter x = Ok y -> length y = length x) /\
  (forall df, (length df < Savgol.window_length)%nat ->
     exists e, Savgol.savgol_filter (map accel_x df) = Err e /\
               integrate_acceleration df = Err e).
Proof.
  split; [exact SavgolFacts.savgol_filter_err |].
  split; [exact SavgolFacts.savgol_filter_ok_length |].
  intros df H.
  assert (Hx : (length (map accel_x df) < Savgol.window_length)%nat)
    by now rewrite length_map.
  apply SavgolFacts.savgol_filter_err in Hx. destruct Hx as [e E].
  exists e. split; [exact E |].
  unfold integrate_acceleration. rewrite E. reflexivity.
Qed.

(** C8 (counterexample): [integrate_acceleration] accepts timestamps that
    go backwards (2 then 1) and returns displacement series. *)
Lemma integrate_acceleration_accepts_non_monotonic :
  nth 2 (map time_s df_non_monotonic) 0 < nth 1 (map time_s df_non_monotonic) 0 /\
  exists out, integrate_acceleration df_non_monotonic = Ok out.
Proof.
  split; [reflexivity | eexists; reflexivity].
Qed.

(** C8 (amended): no timestamp validation is done: every data frame of at
    least 7 rows, whatever its timestamps, yields three displacement series
    of its length, each starting at 0, and its row count. *)
Theorem integrate_acceleration_total (df : list accel_row) :
  (Savgol.window_length <= length df)%nat ->
  exists dx dy dz, integrate_acceleration df = Ok (dx, dy, dz, length df) /\
    length dx = length df /\ length dy = length df /\ length dz = length df /\
    nth 0 dx 0 = 0 /\ nth 0 dy 0 = 0 /\ nth 0 dz 0 = 0.
Proof.
  intro H.
  assert (Ht : forall f : accel_row -> Q, length (map time_s df) = length (map f df))
    by (intro f; rewrite !length_map; reflexivity).
  destruct (axis_pipeline (map accel_x df) (map time_s df)) as (sx & vx & dx & Sx & Vx & Dx & Lx & Zx);
    [rewrite length_map; exact H | apply Ht |].
  destruct (axis_pipeline (map accel_y df) (map time_s df)) as (sy & vy & dy & Sy & Vy & Dy & Ly & Zy);
    [rewrite length_map; exact H | apply Ht |].
  destruct (axis_pipeline (map accel_z df) (map time_s df)) as (sz & vz & dz & Sz & Vz & Dz & Lz & Zz);
    [rewrite length_map; exact H | apply Ht |].
  rewrite length_map in Lx, Ly, Lz.
  exists dx, dy, dz.
  unfold integrate_acceleration.
  rewrite Sx; cbn [bind]. rewrite Sy; cbn [bind]. rewrite Sz; cbn [bind].
  rewrite Vx; cbn [bind]. rewrite Vy; cbn [bind]. rewrite Vz; cbn [bind].
  rewrite Dx; cbn [bind]. rewrite Dy; cbn [bind]. rewrite Dz; cbn [bind].
  rewrite length_map. repeat split; assumption.
Qed.

Lemma integrate_acceleration_total_witness :
  (Savgol.window_length <= length df_non_monotonic)%nat /\
  exists dx dy dz, integrate_acceleration df_non_monotonic =
      Ok (dx, dy, dz, length df_non_monotonic) /\
    length dx = length df_non_monotonic /\ length dy = length df_non_monotonic /\
    length dz = length df_non_monotonic /\
    nth 0 dx 0 = 0 /\ nth 0 dy 0 = 0 /\ nth 0 dz 0 = 0.
Proof.
  split; [vm_compute; lia |].
  apply integrate_acceleration_total. vm_compute. lia.
Defined.

Local Close Scope Q_scope.

(** * Facts on binary64 comparisons *)

Module FloatFacts.
Local Open Scope float_scope.

Lemma ltb_irrefl (x : float) : (x <? x) = false.
Proof.
  rewrite ltb_spec. unfold SFltb.
  destruct (Prim2SF x) as [s | s | | s m e]; simpl; try reflexivity;
    destruct s; try reflexivity;
    rewrite Z.compare_refl, Pos.compare_cont_refl; reflexivity.
Qed.

Lemma leb_not_ltb (x y : float) : (x <=? y) = true -> (y <? x) = false.
Proof.
  rewrite leb_spec, ltb_spec. unfold SFleb, SFltb. intro H.
  destruct (Prim2SF x) as [sx | sx | | sx mx ex], (Prim2SF y) as [sy | sy | | sy my ey];
    simpl in *; try destruct sx; try destruct sy; simpl in *; try discriminate; try reflexivity;
    change (PosDef.Pos.compare_cont Eq my mx) with (Pos.compare my mx) in *;
    change (PosDef.Pos.compare_cont Eq mx my) with (Pos.compare mx my) in *;
    pose proof (Z.compare_antisym ex ey) as Ez;
    pose proof (Pos.compare_antisym mx my) as Ep;
    destruct (ex ?= ey)%Z, (ey ?= ex)%Z; simpl in *; try discriminate; try reflexivity;
    destruct (Pos.compare mx my), (Pos.compare my mx); simpl in *; try discriminate; reflexivity.
Qed.

End FloatFacts.

(** * Sampling statistics *)

Local Open Scope float_scope.

(** C5: for [n > 1] timestamps, with
    [avg_interval = (t[-1]-t[0])/(n-1)], the frequency is [1/avg_interval]
    when [avg_interval > 0] and 0 when [avg_interval <= 0]; for [n <= 1] it
    is 0 without failing; the count is always [n]. On [[0,1,2,3]] the result
    is [(1.0, 4)] and on [[5.0]] it is [(0.0, 1)]. *)
Theorem acceleration_frequency_spec :
  (forall times, (1 < length times)%nat ->
     let avg_interval :=
       (Py.last_elem times - hd 0 times) / Py.float_of_nat (length times - 1) in
     snd (calculate_acceleration_frequency times) = length times /\
     ((0 <? avg_interval) = true ->
        fst (calculate_acceleration_frequency times) = 1 / avg_interval) /\
     ((avg_interval <=? 0) = true ->
        fst (calculate_acceleration_frequency times) = 0)) /\
  (forall times, (length times <= 1)%nat ->
     calculate_acceleration_frequency times = (0, length times)) /\
  calculate_acceleration_frequency [0; 1; 2; 3] = (1, 4%nat) /\
  calculate_acceleration_frequency [5] = (0, 1%nat).
Proof.
  split; [| split; [| split; reflexivity]].
  - intros times Hn avg_interval.
    destruct times as [| t0 [| t1 ts]]; simpl in Hn; try lia.
    unfold calculate_acceleration_frequency, avg_interval in *.
    change (hd 0 (t0 :: t1 :: ts)) with t0 in *.
    cbn [fst snd].
    split; [reflexivity |].
    split; intro H.
    + rewrite H. reflexivity.
    + rewrite (FloatFacts.leb_not_ltb _ _ H). reflexivity.
  - intros times Hn.
    destruct times as [| t0 [| t1 ts]]; simpl in Hn; try lia; reflexivity.
Qed.

(** * Properties of the GPS prefix filter *)

Module DivergenceFacts.
Import Divergence.

Lemma index_ok (l : list float) (i : nat) : (i < length l)%nat -> index l i = Ok (nth i l 0).
Proof.
  intro H. unfold index. rewrite (nth_error_nth' l 0 H). reflexivity.
Qed.

Lemma collect_spec (latitudes longitudes : list float) (is : list nat) :
  length latitudes = length longitudes ->
  (forall i, In i is -> (1 <= i < length latitudes)%nat) ->
  collect latitudes longitudes is = Ok (map (spec_step_distance latitudes longitudes) is).
Proof.
  intros Hl. induction is as [| i is IH]; intro Hin; [reflexivity |].
  assert (Hi : (1 <= i < length latitudes)%nat) by (apply Hin; left; reflexivity).
  simpl. unfold step_distance.
  rewrite (index_ok latitudes i), (index_ok latitudes (i - 1)),
    (index_ok longitudes i), (index_ok longitudes (i - 1)) by lia.
  cbn [bind].
  rewrite IH by (intros j Hj; apply Hin; right; exact Hj).
  reflexivity.
Qed.

Lemma consecutive_distances_spec (latitudes longitudes : list float) (max_points_to_check : nat) :
  length latitudes = length longitudes ->
  consecutive_distances latitudes longitudes max_points_to_check =
  Ok (spec_distances latitudes longitudes
        (Nat.min max_points_to_check (length latitudes - 1))).
Proof.
  intro Hl. unfold consecutive_distances, loop_indices, spec_distances.
  replace (Nat.min (max_points_to_check + 1) (length latitudes) - 1)%nat
    with (Nat.min max_points_to_check (length latitudes - 1)) by lia.
  apply collect_spec; [exact Hl |].
  intros i Hi. apply in_seq in Hi. lia.
Qed.

Lemma scan_leading_run (threshold : float) (ds : list float) :
  forall i, scan threshold ds i i = (i + leading_run threshold ds)%nat.
Proof.
  induction ds as [| d ds IH]; intro i; simpl; [lia |].
  destruct (threshold <? d)%float; [rewrite IH; lia | lia].
Qed.

Lemma leading_run_le (threshold : float) (ds : list float) :
  (leading_run threshold ds <= length ds)%nat.
Proof.
  induction ds as [| d ds IH]; simpl; [lia |].
  destruct (threshold <? d)%float; lia.
Qed.

Lemma leading_run_exceeds (threshold : float) (ds : list float) :
  forall j, (j < leading_run threshold ds)%nat -> (threshold <? nth j ds 0)%float = true.
Proof.
  induction ds as [| d ds IH]; intros j Hj; simpl in *; [lia |].
  destruct (threshold <? d)%float eqn:E; [| lia].
  destruct j as [| j]; [exact E | apply IH; lia].
Qed.

Lemma leading_run_stops (threshold : float) (ds : list float) :
  (leading_run threshold ds < length ds)%nat ->
  (threshold <? nth (leading_run threshold ds) ds 0)%float = false.
Proof.
  induction ds as [| d ds IH]; intro H; simpl in *; [lia |].
  destruct (threshold <? d)%float eqn:E; [apply IH; lia | exact E].
Qed.

(** Refinement: on coordinate arrays of one length the source loop computes
    the spec reading. *)
Lemma filter_refines_spec (latitudes longitudes : list float) (max_points_to_check : nat) :
  length latitudes = length longitudes ->
  filter_diverging_gps_points latitudes longitudes max_points_to_check =
  Ok (spec_filter latitudes longitudes max_points_to_check).
Proof.
  intro Hl. unfold filter_diverging_gps_points, spec_filter.
  destruct (Nat.ltb (length latitudes) max_points_to_check); [reflexivity |].
  rewrite consecutive_distances_spec by exact Hl. cbn [bind].
  set (ds := spec_distances _ _ _).
  destruct (Nat.ltb (length ds) 3); [reflexivity |].
  rewrite scan_leading_run. simpl Nat.add.
  destruct (Nat.ltb_spec 0 (leading_run (2 * median ds) ds)) as [H | H]; [reflexivity |].
  replace (leading_run (2 * median ds) ds) with 0%nat by lia. reflexivity.
Qed.

Lemma spec_distances_length (latitudes longitudes : list float) (k : nat) :
  length (spec_distances latitudes longitudes k) = k.
Proof. unfold spec_distances. rewrite length_map, length_seq. reflexivity. Qed.

(** The number of points [spec_filter] removes is the one it reports, at
    most [min max_points_to_check (n - 1)]. *)
Lemma spec_filter_shape (latitudes longitudes : list float) (max_points_to_check : nat) :
  exists k, spec_filter latitudes longitudes max_points_to_check =
            (skipn k latitudes, skipn k longitudes, k) /\
            (k <= Nat.min max_points_to_check (length latitudes - 1))%nat.
Proof.
  unfold spec_filter.
  destruct (Nat.ltb (length latitudes) max_points_to_check);
    [exists 0%nat; split; [reflexivity | lia] |].
  set (ds := spec_distances _ _ _).
  destruct (Nat.ltb (length ds) 3); [exists 0%nat; split; [reflexivity | lia] |].
  exists (leading_run (2 * median ds) ds). split; [reflexivity |].
  pose proof (leading_run_le (2 * median ds) ds) as H.
  assert (Hds : length ds = Nat.min max_points_to_check (length latitudes - 1))
    by (unfold ds; apply spec_distances_length).
  lia.
Qed.

(** A result with nothing removed is the input itself. *)
Lemma filter_zero_removed (latitudes longitudes lat' lon' : list float) (max_points_to_check : nat) :
  filter_diverging_gps_points latitudes longitudes max_points_to_check = Ok (lat', lon', 0%nat) ->
  lat' = latitudes /\ lon' = longitudes.
Proof.
  unfold filter_diverging_gps_points.
  destruct (Nat.ltb (length latitudes) max_points_to_check);
    [intro E; injection E as -> ->; auto |].
  destruct (consecutive_distances latitudes longitudes max_points_to_check) as [ds | e];
    cbn [bind]; [| discriminate].
  destruct (Nat.ltb (length ds) 3); [intro E; injection E as -> ->; auto |].
  destruct (Nat.ltb_spec 0 (scan (2 * median ds) ds 0 0)) as [H | H].
  - intro E; injection E as _ _ E. lia.
  - intro E; injection E as -> ->; auto.
Qed.

End DivergenceFacts.

(** * The GPS prefix filter *)


Lemma fixed_lon_length (l : list float) : length (fixed_lon l) = length l.
Proof. apply length_map. Qed.

(** C1: with [max_points_to_check = 10] and coordinate arrays of one
    length [n]: for [n < 10] (e.g. 5) the input is returned with 0 removed;
    for [n >= 10] the step distances of the first [min(10, n-1)] pairs are
    compared with [threshold = 2 * median], and the removed prefix is the
    leading run of distances strictly above it, ending at the first one that
    is not; if the first 3 are above and the 4th is not, 3 points are removed
    and the retained series starts at index 3. *)
Theorem divergence_filter_leading_run (latitudes longitudes : list float) :
  length latitudes = length longitudes ->
  ((length latitudes < 10)%nat ->
     Divergence.filter_diverging_gps_points latitudes longitudes 10 =
     Ok (latitudes, longitudes, 0%nat)) /\
  ((10 <= length latitudes)%nat ->
     let ds := Divergence.spec_distances latitudes longitudes
                 (Nat.min 10 (length latitudes - 1)) in
     let threshold := 2 * Divergence.median ds in
     exists k,
       Divergence.filter_diverging_gps_points latitudes longitudes 10 =
       Ok (skipn k latitudes, skipn k longitudes, k) /\
       (k <= length ds)%nat /\
       (forall j, (j < k)%nat -> (threshold <? nth j ds 0) = true) /\
       ((k < length ds)%nat -> (threshold <? nth k ds 0) = false) /\
       ((forall j, (j < 3)%nat -> (threshold <? nth j ds 0) = true) ->
        (threshold <? nth 3 ds 0) = false -> k = 3%nat)).
Proof.
  intro Hl.
  rewrite (DivergenceFacts.filter_refines_spec latitudes longitudes 10 Hl).
  split.
  - intro H. unfold Divergence.spec_filter. apply Nat.ltb_lt in H. rewrite H. reflexivity.
  - intro H. cbv zeta.
    set (ds := Divergence.spec_distances _ _ _).
    set (threshold := 2 * Divergence.median ds).
    unfold Divergence.spec_filter. fold ds threshold.
    assert (Hds : length ds = Nat.min 10 (length latitudes - 1))
      by apply DivergenceFacts.spec_distances_length.
    destruct (Nat.ltb_spec (length latitudes) 10) as [H' | _]; [lia |].
    fold ds.
    destruct (Nat.ltb_spec (length ds) 3) as [H' | _]; [lia |].
    fold threshold.
    set (k := Divergence.leading_run threshold ds).
    exists k. split; [reflexivity |].
    pose proof (DivergenceFacts.leading_run_le threshold ds) as Hle.
    pose proof (DivergenceFacts.leading_run_exceeds threshold ds) as Hex.
    pose proof (DivergenceFacts.leading_run_stops threshold ds) as Hst.
    fold k in Hle, Hex, Hst.
    split; [exact Hle |]. split; [exact Hex |]. split; [exact Hst |].
    intros H3 H4.
    destruct (lt_eq_lt_dec k 3) as [[Hk | Hk] | Hk]; [| exact Hk |].
    + rewrite H3 in Hst by exact Hk. discriminate Hst. lia.
    + rewrite Hex in H4 by exact Hk. discriminate H4.
Qed.

Lemma divergence_filter_leading_run_witness :
  length lat_three_outliers = length (fixed_lon lat_three_outliers) /\
  Divergence.filter_diverging_gps_points lat_three_outliers (fixed_lon lat_three_outliers) 10 =
  Ok (skipn 3 lat_three_outliers, skipn 3 (fixed_lon lat_three_outliers), 3%nat) /\
  ((length lat_three_outliers < 10)%nat ->
     Divergence.filter_diverging_gps_points lat_three_outliers (fixed_lon lat_three_outliers) 10 =
     Ok (lat_three_outliers, fixed_lon lat_three_outliers, 0%nat)) /\
  ((10 <= length lat_three_outliers)%nat ->
     let ds := Divergence.spec_distances lat_three_outliers (fixed_lon lat_three_outliers)
                 (Nat.min 10 (length lat_three_outliers - 1)) in
     let threshold := 2 * Divergence.median ds in
     exists k,
       Divergence.filter_diverging_gps_points lat_three_outliers (fixed_lon lat_three_outliers) 10 =
       Ok (skipn k lat_three_outliers, skipn k (fixed_lon lat_three_outliers), k) /\
       (k <= length ds)%nat /\
       (forall j, (j < k)%nat -> (threshold <? nth j ds 0) = true) /\
       ((k < length ds)%nat -> (threshold <? nth k ds 0) = false) /\
       ((forall j, (j < 3)%nat -> (threshold <? nth j ds 0) = true) ->
        (threshold <? nth 3 ds 0) = false -> k = 3%nat)).
Proof.
  split; [reflexivity |]. split; [vm_compute; reflexivity |].
  apply divergence_filter_leading_run. reflexivity.
Defined.

(** C7: on coordinate arrays of one length, the filter removes a leading
    prefix only: both retained arrays are the input arrays from index
    [removed_count] on, and [removed_count] is the drop in length of each. *)
Theorem divergence_filter_prefix_only (latitudes longitudes : list float)
    (max_points_to_check : nat) :
  length latitudes = length longitudes ->
  exists lat' lon' k,
    Divergence.filter_diverging_gps_points latitudes longitudes max_points_to_check =
    Ok (lat', lon', k) /\
    lat' = skipn k latitudes /\ lon' = skipn k longitudes /\
    k = (length latitudes - length lat')%nat /\ k = (length longitudes - length lon')%nat.
Proof.
  intro Hl.
  rewrite (DivergenceFacts.filter_refines_spec latitudes longitudes max_points_to_check Hl).
  destruct (DivergenceFacts.spec_filter_shape latitudes longitudes max_points_to_check)
    as (k & E & Hk).
  rewrite E. exists (skipn k latitudes), (skipn k longitudes), k.
  rewrite !length_skipn. repeat split; lia.
Qed.

Lemma divergence_filter_prefix_only_witness :
  length lat_shifting_median = length (fixed_lon lat_shifting_median) /\
  exists lat' lon' k,
    Divergence.filter_diverging_gps_points lat_shifting_median (fixed_lon lat_shifting_median) 10 =
    Ok (lat', lon', k) /\
    lat' = skipn k lat_shifting_median /\ lon' = skipn k (fixed_lon lat_shifting_median) /\
    k = (length lat_shifting_median - length lat')%nat /\
    k = (length (fixed_lon lat_shifting_median) - length lon')%nat.
Proof.
  split; [reflexivity |]. apply divergence_filter_prefix_only. reflexivity.
Defined.

(** C9: on coordinate arrays of one length [n >= 1], at most
    [min(max_points_to_check, n - 1)] points are removed, so both retained
    arrays keep at least one point. *)
Theorem divergence_filter_nonempty (latitudes longitudes : list float)
    (max_points_to_check : nat) :
  length latitudes = length longitudes -> (1 <= length latitudes)%nat ->
  exists lat' lon' k,
    Divergence.filter_diverging_gps_points latitudes longitudes max_points_to_check =
    Ok (lat', lon', k) /\
    (k <= Nat.min max_points_to_check (length latitudes - 1))%nat /\
    lat' <> [] /\ lon' <> [].
Proof.
  intros Hl Hn.
  rewrite (DivergenceFacts.filter_refines_spec latitudes longitudes max_points_to_check Hl).
  destruct (DivergenceFacts.spec_filter_shape latitudes longitudes max_points_to_check)
    as (k & E & Hk).
  rewrite E. exists (skipn k latitudes), (skipn k longitudes), k.
  split; [reflexivity |]. split; [exact Hk |].
  split; intro Hnil; apply (f_equal (@length float)) in Hnil;
    rewrite length_skipn in Hnil; simpl in Hnil; lia.
Qed.

Lemma divergence_filter_nonempty_witness :
  length lat_three_outliers = length (fixed_lon lat_three_outliers) /\
  (1 <= length lat_three_outliers)%nat /\
  exists lat' lon' k,
    Divergence.filter_diverging_gps_points lat_three_outliers (fixed_lon lat_three_outliers) 10 =
    Ok (lat', lon', k) /\
    (k <= Nat.min 10 (length lat_three_outliers - 1))%nat /\
    lat' <> [] /\ lon' <> [].
Proof.
  split; [reflexivity |]. split; [simpl; lia |].
  apply divergence_filter_nonempty; [reflexivity | simpl; lia].
Defined.

(** C10: the comparison is strict: when the first computed step distance
    equals [2 * median_distance] exactly, nothing is removed. *)
Theorem divergence_threshold_strict (latitudes longitudes : list float)
    (max_points_to_check : nat) (d : float) (ds : list float) :
  Divergence.consecutive_distances latitudes longitudes max_points_to_check = Ok (d :: ds) ->
  d = 2 * Divergence.median (d :: ds) ->
  Divergence.filter_diverging_gps_points latitudes longitudes max_points_to_check =
  Ok (latitudes, longitudes, 0%nat).
Proof.
  intros Hd Ht. unfold Divergence.filter_diverging_gps_points.
  destruct (Nat.ltb (length latitudes) max_points_to_check); [reflexivity |].
  rewrite Hd. cbn [bind].
  destruct (Nat.ltb (length (d :: ds)) 3); [reflexivity |].
  rewrite <- Ht. simpl. rewrite FloatFacts.ltb_irrefl. reflexivity.
Qed.

Lemma divergence_threshold_strict_witness :
  Divergence.consecutive_distances lat_boundary (fixed_lon lat_boundary) 10 =
    Ok [2; 1; 1; 1; 1; 1; 1; 1; 1] /\
  2 = 2 * Divergence.median [2; 1; 1; 1; 1; 1; 1; 1; 1] /\
  Divergence.filter_diverging_gps_points lat_boundary (fixed_lon lat_boundary) 10 =
  Ok (lat_boundary, fixed_lon lat_boundary, 0%nat).
Proof.
  split; [vm_compute; reflexivity |]. split; [vm_compute; reflexivity |].
  apply (divergence_threshold_strict lat_boundary (fixed_lon lat_boundary) 10 2
           [1; 1; 1; 1; 1; 1; 1; 1]); vm_compute; reflexivity.
Defined.

(** C6 (counterexample): on a 12-point track the first pass removes one
    point (threshold 4 from the median 2) and a second pass over its output
    removes one more (the shifted window has median 1.5, threshold 3). *)
Lemma divergence_filter_not_idempotent :
  Divergence.filter_diverging_gps_points lat_shifting_median (fixed_lon lat_shifting_median) 10 =
  Ok (skipn 1 lat_shifting_median, skipn 1 (fixed_lon lat_shifting_median), 1%nat) /\
  Divergence.filter_diverging_gps_points
    (skipn 1 lat_shifting_median) (skipn 1 (fixed_lon lat_shifting_median)) 10 =
  Ok (skipn 2 lat_shifting_median, skipn 2 (fixed_lon lat_shifting_median), 1%nat).
Proof. split; vm_compute; reflexivity. Qed.

(** C6 (amended): a second pass over the filter's output removes nothing
    when the first pass removed nothing or when the retained series is
    shorter than [max_points_to_check]. *)
Theorem divergence_filter_rerun (latitudes longitudes lat' lon' : list float)
    (max_points_to_check k : nat) :
  Divergence.filter_diverging_gps_points latitudes longitudes max_points_to_check =
  Ok (lat', lon', k) ->
  (k = 0%nat \/ (length lat' < max_points_to_check)%nat) ->
  Divergence.filter_diverging_gps_points lat' lon' max_points_to_check = Ok (lat', lon', 0%nat).
Proof.
  intros E [Hk | Hs].
  - subst k. destruct (DivergenceFacts.filter_zero_removed _ _ _ _ _ E) as [-> ->].
    exact E.
  - unfold Divergence.filter_diverging_gps_points at 1.
    apply Nat.ltb_lt in Hs. rewrite Hs. reflexivity.
Qed.

Lemma divergence_filter_rerun_witness :
  Divergence.filter_diverging_gps_points lat_short (fixed_lon lat_short) 10 =
    Ok (lat_short, fixed_lon lat_short, 0%nat) /\
  Divergence.filter_diverging_gps_points lat_short (fixed_lon lat_short) 10 =
    Ok (lat_short, fixed_lon lat_short, 0%nat).
Proof.
  split; [reflexivity |].
  apply (divergence_filter_rerun lat_short (fixed_lon lat_short) lat_short (fixed_lon lat_short)
           10 0); [reflexivity | left; reflexivity].
Defined.

(** * Further properties of the smoothing and integration stages *)



Module DivergenceExtra.
Import Divergence.

Lemma step_distance_ok (latitudes longitudes : list float) (i : nat) :
  (1 <= i < length latitudes)%nat -> (i < length longitudes)%nat ->
  exists d, step_distance latitudes longitudes i = Ok d.
Proof.
  intros H1 H2. unfold step_distance.
  rewrite !DivergenceFacts.index_ok by lia. cbn [bind]. eexists; reflexivity.
Qed.

Lemma step_distance_err (latitudes longitudes : list float) (i : nat) :
  (1 <= i < length latitudes)%nat -> (length longitudes <= i)%nat ->
  step_distance latitudes longitudes i = Err IndexError.
Proof.
  intros H1 H2. unfold step_distance.
  rewrite !(DivergenceFacts.index_ok latitudes) by lia. cbn [bind].
  unfold index. apply nth_error_None in H2. rewrite H2. reflexivity.
Qed.

Lemma collect_result (latitudes longitudes : list float) (is : list nat) :
  (forall i, In i is -> (1 <= i < length latitudes)%nat) ->
  (collect latitudes longitudes is = Err IndexError /\
     exists i, In i is /\ (length longitudes <= i)%nat) \/
  ((exists ds, collect latitudes longitudes is = Ok ds) /\
     forall i, In i is -> (i < length longitudes)%nat).
Proof.
  induction is as [| i is IH]; intro Hin.
  - right. split; [eexists; reflexivity | intros i []].
  - assert (Hi : (1 <= i < length latitudes)%nat) by (apply Hin; left; reflexivity).
    destruct (Nat.lt_ge_cases i (length longitudes)) as [Hl | Hl].
    + destruct (step_distance_ok latitudes longitudes i Hi Hl) as [d Ed].
      destruct IH as [(E & j & Hj & Hlj) | ((ds & E) & Hall)];
        [intros j Hj; apply Hin; right; exact Hj | |].
      * left. simpl. rewrite Ed. cbn [bind]. rewrite E. split; [reflexivity |].
        exists j. split; [right; exact Hj | exact Hlj].
      * right. simpl. rewrite Ed. cbn [bind]. rewrite E. split; [eexists; reflexivity |].
        intros j [<- | Hj]; [exact Hl | apply Hall; exact Hj].
    + left. simpl. rewrite (step_distance_err latitudes longitudes i Hi Hl). split; [reflexivity |].
      exists i. split; [left; reflexivity | exact Hl].
Qed.

(** The filter fails only with [IndexError], and exactly when it reaches the
    distance loop ([len(latitudes) >= max_points_to_check]), the loop runs at
    least once, and [longitudes] is shorter than the points the loop reads,
    [min(max_points_to_check + 1, len(latitudes))]. A [longitudes] array at
    least that long never fails. *)
Theorem filter_index_error (latitudes longitudes : list float) (max_points_to_check : nat) :
  (forall e, filter_diverging_gps_points latitudes longitudes max_points_to_check = Err e ->
             e = IndexError) /\
  (filter_diverging_gps_points latitudes longitudes max_points_to_check = Err IndexError <->
   (max_points_to_check <= length latitudes /\
    2 <= Nat.min (max_points_to_check + 1) (length latitudes) /\
    length longitudes < Nat.min (max_points_to_check + 1) (length latitudes))%nat).
Proof.
  set (p := Nat.min (max_points_to_check + 1) (length latitudes)).
  unfold filter_diverging_gps_points.
  destruct (Nat.ltb_spec (length latitudes) max_points_to_check) as [Hm | Hm].
  - split; [intros e E; discriminate E |]. split; [intro E; discriminate E | lia].
  - unfold consecutive_distances.
    destruct (collect_result latitudes longitudes
                (loop_indices max_points_to_check (length latitudes)))
      as [(E & i & Hi & Hli) | ((ds & E) & Hall)].
    + intros i Hi. unfold loop_indices in Hi. apply in_seq in Hi. lia.
    + rewrite E. cbn [bind]. unfold loop_indices in Hi. apply in_seq in Hi.
      split; [intros e H; injection H as <-; reflexivity |].
      split; [intros _; fold p in Hi |- *; lia | reflexivity].
    + rewrite E. cbn [bind].
      assert (Hok : forall r, (if Nat.ltb (length ds) 3 then Ok (latitudes, longitudes, 0%nat)
                  else let median_distance := median ds in
                       let threshold := (2 * median_distance)%float in
                       let points_to_remove := scan threshold ds 0 0 in
                       if Nat.ltb 0 points_to_remove then
                         Ok (skipn points_to_remove latitudes, skipn points_to_remove longitudes,
                             points_to_remove)
                       else Ok (latitudes, longitudes, 0%nat)) <> Err r).
      { intro r. destruct (Nat.ltb (length ds) 3); [discriminate |]. cbv zeta.
        destruct (Nat.ltb 0 _); discriminate. }
      split; [intros e H; exfalso; exact (Hok e H) |].
      split; [intro H; exfalso; exact (Hok IndexError H) |].
      intros (_ & H2 & H3). fold p in H2, H3.
      assert (Hin : In (p - 1)%nat (loop_indices max_points_to_check (length latitudes)))
        by (unfold loop_indices; fold p; apply in_seq; lia).
      specialize (Hall _ Hin). lia.
Qed.

End DivergenceExtra.

Module DictExtra.
Import PyDict.

Lemma get_setitem {V} (d : dict V) (k : string) (v : V) (k' : string) :
  get (setitem d k v) k' = if String.eqb k' k then Some v else get d k'.
Proof.
  induction d as [| [k0 v0] d IH]; simpl.
  - destruct (String.eqb k' k); reflexivity.
  - destruct (String.eqb_spec k k0) as [-> | Hne]; simpl.
    + destruct (String.eqb k' k0); reflexivity.
    + rewrite IH. destruct (String.eqb_spec k' k) as [E1 | E1];
        destruct (String.eqb_spec k' k0) as [E2 | E2]; congruence.
Qed.

Lemma in_keys_setitem {V} (d : dict V) (k : string) (v : V) (k' : string) :
  In k' (keys (setitem d k v)) <-> k' = k \/ In k' (keys d).
Proof.
  unfold keys. induction d as [| [k0 v0] d IH]; simpl.
  - intuition congruence.
  - destruct (String.eqb_spec k k0) as [-> | Hne]; simpl.
    + intuition congruence.
    + rewrite IH. intuition congruence.
Qed.

Lemma nodup_keys_setitem {V} (d : dict V) (k : string) (v : V) :
  NoDup (keys d) -> NoDup (keys (setitem d k v)).
Proof.
  induction d as [| [k0 v0] d IH]; simpl; intro H.
  - constructor; [intros [] | constructor].
  - inversion H as [| ? ? Hn Hd]; subst.
    destruct (String.eqb_spec k k0) as [-> | Hne]; simpl.
    + constructor; assumption.
    + constructor; [| apply IH; exact Hd].
      change (map fst (setitem d k v)) with (keys (setitem d k v)).
      rewrite in_keys_setitem. intros [E | E]; [congruence | exact (Hn E)].
Qed.

(** A fold of row updates over a dict, where each row either writes one fixed
    key [k] or leaves it alone: the key ends with the value of the last row
    that writes it, and is missing from the result iff no row writes it. *)

Section LastWrite.
Context {R V : Type} (f : dict V -> R -> dict V) (k : string) (p : R -> bool) (g : R -> V).
Hypothesis Hf : forall d r, get (f d r) k = if p r then Some (g r) else get d k.

Lemma fold_get_untouched (rows : list R) (d : dict V) :
  (forall r, In r rows -> p r = false) -> get (fold_left f rows d) k = get d k.
Proof.
  revert d. induction rows as [| r rows IH]; intros d H; simpl; [reflexivity |].
  rewrite IH by (intros r' Hr'; apply H; right; exact Hr').
  rewrite Hf, (H r (or_introl eq_refl)). reflexivity.
Qed.

Lemma fold_get_last (pre : list R) (r : R) (post : list R) (d : dict V) :
  p r = true -> (forall r', In r' post -> p r' = false) ->
  get (fold_left f (pre ++ r :: post) d) k = Some (g r).
Proof.
  intros Hr Hpost. rewrite fold_left_app. simpl.
  rewrite fold_get_untouched by exact Hpost. rewrite Hf, Hr. reflexivity.
Qed.

Lemma fold_get_some (rows : list R) (d : dict V) :
  (exists r, In r rows /\ p r = true) ->
  exists r, In r rows /\ p r = true /\ get (fold_left f rows d) k = Some (g r).
Proof.
  revert d. induction rows as [| a rows IH]; intros d (r & Hr & Hp); [destruct Hr |].
  simpl. destruct (existsb p rows) eqn:E.
  - apply existsb_exists in E. destruct (IH (f d a) E) as (r' & Hr' & Hp' & Hg).
    exists r'. split; [right; exact Hr' | split; assumption].
  - assert (Hall : forall r', In r' rows -> p r' = false).
    { intros r' Hr'. destruct (p r') eqn:Ep; [| reflexivity].
      assert (existsb p rows = true) by (apply existsb_exists; exists r'; split; assumption).
      congruence. }
    destruct Hr as [<- | Hr]; [| rewrite (Hall r Hr) in Hp; discriminate].
    exists a. split; [left; reflexivity | split; [exact Hp |]].
    rewrite fold_get_untouched by exact Hall. rewrite Hf, Hp. reflexivity.
Qed.

Lemma fold_get_none (rows : list R) (d : dict V) :
  get d k = None ->
  (get (fold_left f rows d) k = None <-> forall r, In r rows -> p r = false).
Proof.
  intro Hd. split.
  - intros H r Hr. destruct (p r) eqn:Ep; [| reflexivity].
    destruct (fold_get_some rows d (ex_intro _ r (conj Hr Ep))) as (r' & _ & _ & Hg).
    congruence.
  - intro H. rewrite fold_get_untouched by exact H. exact Hd.
Qed.

End LastWrite.

End DictExtra.

Module MetaExtra.
Import PyDict DictExtra.

Lemma device_step_get (k : string) (d : dict string) (row : device_row) :
  get (setitem d (property row) (value row)) k =
  if String.eqb k (property row) then Some (value row) else get d k.
Proof. apply get_setitem. Qed.

(** [parse_device_info]: the value stored under a property is the [value] of
    the last row of [device.csv] with that property; later rows with other
    properties do not change it. *)
Theorem device_info_last_row (df pre post : list device_row) (row : device_row) :
  df = pre ++ row :: post ->
  (forall r, In r post -> property r <> property row) ->
  get (parse_device_info df) (property row) = Some (value row).
Proof.
  intros -> Hpost. unfold parse_device_info.
  apply (fold_get_last _ (property row) (fun r => String.eqb (property row) (property r))).
  - intros d r. apply device_step_get.
  - apply String.eqb_refl.
  - intros r' Hr'. apply String.eqb_neq. intro E. exact (Hpost r' Hr' (eq_sym E)).
Qed.

Lemma device_info_last_row_witness :
  device_sample = [device_model_1] ++ device_model_2 :: [device_brand] /\
  (forall r, In r [device_brand] -> property r <> property device_model_2) /\
  get (parse_device_info device_sample) (property device_model_2) = Some (value device_model_2).
Proof.
  assert (H : forall r, In r [device_brand] -> property r <> property device_model_2)
    by (intros r [<- | []]; vm_compute; intro E; discriminate E).
  split; [reflexivity | split; [exact H |]].
  exact (device_info_last_row device_sample [device_model_1] [device_brand] device_model_2
           eq_refl H).
Defined.

(** [parse_device_info]: a key is missing from the dict (so
    [device_info.get(key, 'N/A')] falls back to ['N/A']) exactly when no row of
    [device.csv] has that property. *)
Theorem device_info_missing (df : list device_row) (k : string) :
  get (parse_device_info df) k = None <-> forall r, In r df -> property r <> k.
Proof.
  unfold parse_device_info.
  rewrite (fold_get_none _ k (fun r => String.eqb k (property r)) value)
    by (reflexivity || (intros d r; apply device_step_get)).
  split; intros H r Hr; specialize (H r Hr).
  - apply String.eqb_neq in H. congruence.
  - apply String.eqb_neq. congruence.
Qed.

(** [parse_device_info]: the keys of the dict are pairwise distinct, and they
    are exactly the properties that occur in [device.csv]. *)
Theorem device_info_keys (df : list device_row) :
  NoDup (keys (parse_device_info df)) /\
  forall k, In k (keys (parse_device_info df)) <-> exists r, In r df /\ property r = k.
Proof.
  unfold parse_device_info.
  assert (G : forall rows (d : dict string), NoDup (keys d) ->
    NoDup (keys (fold_left (fun device_info row =>
                   setitem device_info (property row) (value row)) rows d)) /\
    forall k, In k (keys (fold_left (fun device_info row =>
                   setitem device_info (property row) (value row)) rows d)) <->
              In k (keys d) \/ exists r, In r rows /\ property r = k).
  { induction rows as [| r rows IH]; intros d Hd; simpl.
    - split; [exact Hd |]. intro k. split; [tauto |]. intros [H | (r & [] & _)]; exact H.
    - destruct (IH (setitem d (property r) (value r)) (nodup_keys_setitem _ _ _ Hd))
        as [Hn Hk].
      split; [exact Hn |]. intro k. rewrite Hk, in_keys_setitem. split.
      + intros [[E | E] | (r' & Hr' & E)].
        * right. exists r. split; [left; reflexivity | congruence].
        * left. exact E.
        * right. exists r'. split; [right; exact Hr' | exact E].
      + intros [E | (r' & [<- | Hr'] & E)].
        * left. right. exact E.
        * left. left. congruence.
        * right. exists r'. split; assumption. }
  destruct (G df [] (NoDup_nil _)) as [Hn Hk]. split; [exact Hn |].
  intro k. rewrite Hk. simpl. tauto.
Qed.

Lemma time_step_duration (d : dict time_value) (r : time_row) :
  get (parse_time_row d r) "duration" =
  if String.eqb (event r) "PAUSE" then Some (TNum (experiment_time r)) else get d "duration".
Proof.
  unfold parse_time_row.
  destruct (String.eqb_spec (event r) "START") as [E | E].
  - rewrite E. simpl. rewrite get_setitem. reflexivity.
  - destruct (String.eqb (event r) "PAUSE"); [| reflexivity].
    rewrite !get_setitem. reflexivity.
Qed.

Lemma time_step_end (d : dict time_value) (r : time_row) :
  get (parse_time_row d r) "end_time" =
  if String.eqb (event r) "PAUSE" then Some (TText (system_time_text r)) else get d "end_time".
Proof.
  unfold parse_time_row.
  destruct (String.eqb_spec (event r) "START") as [E | E].
  - rewrite E. simpl. rewrite get_setitem. reflexivity.
  - destruct (String.eqb (event r) "PAUSE"); [| reflexivity].
    rewrite !get_setitem. reflexivity.
Qed.

Lemma time_step_start (d : dict time_value) (r : time_row) :
  get (parse_time_row d r) "start_time" =
  if String.eqb (event r) "START" then Some (TText (system_time_text r)) else get d "start_time".
Proof.
  unfold parse_time_row.
  destruct (String.eqb (event r) "START"); [rewrite get_setitem; reflexivity |].
  destruct (String.eqb (event r) "PAUSE"); [| reflexivity].
  rewrite !get_setitem. reflexivity.
Qed.

End MetaExtra.

Module TimeExtra.
Import PyDict DictExtra MetaExtra.

Lemma eqb_false_neq (s t : string) : String.eqb s t = false <-> s <> t.
Proof. apply String.eqb_neq. Qed.

(** [parse_time_info]: after a last [PAUSE] row (no [PAUSE] row follows it),
    ['end_time'] holds that row's [system time text] and ['duration'] its
    [experiment time], whatever other rows come after. *)
Theorem time_info_last_pause (df pre post : list time_row) (row : time_row) :
  df = pre ++ row :: post -> event row = "PAUSE"%string ->
  (forall r, In r post -> event r <> "PAUSE"%string) ->
  get (parse_time_info df) "end_time" = Some (TText (system_time_text row)) /\
  get (parse_time_info df) "duration" = Some (TNum (experiment_time row)).
Proof.
  intros -> Hrow Hpost. unfold parse_time_info.
  assert (Hp : String.eqb (event row) "PAUSE" = true) by (rewrite Hrow; reflexivity).
  assert (Hq : forall r, In r post -> String.eqb (event r) "PAUSE" = false)
    by (intros r Hr; apply eqb_false_neq; apply Hpost; exact Hr).
  split.
  - apply (fold_get_last parse_time_row "end_time"
             (fun r => String.eqb (event r) "PAUSE") (fun r => TText (system_time_text r)));
      [apply time_step_end | exact Hp | exact Hq].
  - apply (fold_get_last parse_time_row "duration"
             (fun r => String.eqb (event r) "PAUSE") (fun r => TNum (experiment_time r)));
      [apply time_step_duration | exact Hp | exact Hq].
Qed.

Lemma time_info_last_pause_witness :
  time_sample = [time_start_1] ++ time_pause_1 :: [time_start_2] /\
  event time_pause_1 = "PAUSE"%string /\
  (forall r, In r [time_start_2] -> event r <> "PAUSE"%string) /\
  get (parse_time_info time_sample) "end_time" = Some (TText (system_time_text time_pause_1)) /\
  get (parse_time_info time_sample) "duration" = Some (TNum (experiment_time time_pause_1)).
Proof.
  assert (H : forall r, In r [time_start_2] -> event r <> "PAUSE"%string)
    by (intros r [<- | []]; vm_compute; intro E; discriminate E).
  split; [reflexivity | split; [reflexivity | split; [exact H |]]].
  exact (time_info_last_pause time_sample [time_start_1] [time_start_2] time_pause_1
           eq_refl eq_refl H).
Defined.

(** [parse_time_info]: after a last [START] row, ['start_time'] holds that
    row's [system time text]. *)
Theorem time_info_last_start (df pre post : list time_row) (row : time_row) :
  df = pre ++ row :: post -> event row = "START"%string ->
  (forall r, In r post -> event r <> "START"%string) ->
  get (parse_time_info df) "start_time" = Some (TText (system_time_text row)).
Proof.
  intros -> Hrow Hpost. unfold parse_time_info.
  apply (fold_get_last parse_time_row "start_time"
           (fun r => String.eqb (event r) "START") (fun r => TText (system_time_text r))).
  - apply time_step_start.
  - rewrite Hrow. reflexivity.
  - intros r Hr. apply eqb_false_neq. apply Hpost. exact Hr.
Qed.

Lemma time_info_last_start_witness :
  time_sample = [time_start_1; time_pause_1] ++ time_start_2 :: [] /\
  event time_start_2 = "START"%string /\
  (forall r, In r [] -> event r <> "START"%string) /\
  get (parse_time_info time_sample) "start_time" = Some (TText (system_time_text time_start_2)).
Proof.
  assert (H : forall r, In r [] -> event r <> "START"%string) by (intros r []).
  split; [reflexivity | split; [reflexivity | split; [exact H |]]].
  exact (time_info_last_start time_sample [time_start_1; time_pause_1] [] time_start_2
           eq_refl eq_refl H).
Defined.

Lemma parse_time_row_keys (d : dict time_value) (r : time_row) (k : string) :
  In k (keys (parse_time_row d r)) ->
  In k (keys d) \/ k = "start_time"%string \/ k = "end_time"%string \/ k = "duration"%string.
Proof.
  unfold parse_time_row.
  destruct (String.eqb (event r) "START").
  - rewrite in_keys_setitem. tauto.
  - destruct (String.eqb (event r) "PAUSE"); [| tauto].
    rewrite !in_keys_setitem. tauto.
Qed.

(** [parse_time_info]: the dict has no keys but ['start_time'], ['end_time']
    and ['duration']; ['start_time'] is missing iff no row is a [START] event,
    and ['end_time'] and ['duration'] are each missing iff no row is a [PAUSE]
    event, so the two are always present together. *)
Theorem time_info_keys (df : list time_row) :
  (forall k, In k (keys (parse_time_info df)) ->
     k = "start_time"%string \/ k = "end_time"%string \/ k = "duration"%string) /\
  (get (parse_time_info df) "start_time" = None <->
     forall r, In r df -> event r <> "START"%string) /\
  (get (parse_time_info df) "end_time" = None <->
     forall r, In r df -> event r <> "PAUSE"%string) /\
  (get (parse_time_info df) "duration" = None <->
     forall r, In r df -> event r <> "PAUSE"%string).
Proof.
  unfold parse_time_info.
  assert (Hb : forall (e : string) (P : time_row -> Prop),
             (forall r, P r -> String.eqb (event r) e = false) <-> (forall r, P r -> event r <> e)).
  { intros e P. split; intros H r Hr; apply eqb_false_neq; apply H; exact Hr. }
  split; [| split; [| split]].
  - assert (G : forall rows d k, In k (keys (fold_left parse_time_row rows d)) ->
               In k (keys d) \/ k = "start_time"%string \/ k = "end_time"%string \/
               k = "duration"%string).
    { induction rows as [| r rows IH]; intros d k Hk; simpl in Hk; [left; exact Hk |].
      destruct (IH _ _ Hk) as [H | H]; [| tauto].
      apply parse_time_row_keys in H. exact H. }
    intros k Hk. destruct (G df [] k Hk) as [[] | H]. exact H.
  - rewrite (fold_get_none parse_time_row "start_time"
               (fun r => String.eqb (event r) "START") (fun r => TText (system_time_text r)))
      by (reflexivity || apply time_step_start).
    apply (Hb "START"%string (fun r => In r df)).
  - rewrite (fold_get_none parse_time_row "end_time"
               (fun r => String.eqb (event r) "PAUSE") (fun r => TText (system_time_text r)))
      by (reflexivity || apply time_step_end).
    apply (Hb "PAUSE"%string (fun r => In r df)).
  - rewrite (fold_get_none parse_time_row "duration"
               (fun r => String.eqb (event r) "PAUSE") (fun r => TNum (experiment_time r)))
      by (reflexivity || apply time_step_duration).
    apply (Hb "PAUSE"%string (fun r => In r df)).
Qed.

End TimeExtra.

Module FileNameExtra.
Import PyStr.

Lemma split_nonempty (sep : ascii) (s : string) : split sep s <> [].
Proof.
  destruct s as [| c s]; simpl; [discriminate |].
  destruct (Ascii.eqb c sep); [discriminate |].
  destruct (split sep s); discriminate.
Qed.

Lemma split_no_sep (sep : ascii) (s : string) : contains sep s = false -> split sep s = [s].
Proof.
  induction s as [| c s IH]; simpl; intro H; [reflexivity |].
  apply Bool.orb_false_iff in H as [H1 H2]. rewrite H1, (IH H2). reflexivity.
Qed.

Lemma split_has_sep (sep : ascii) (s : string) :
  contains sep s = true -> exists a b rest, split sep s = a :: b :: rest.
Proof.
  induction s as [| c s IH]; simpl; intro H; [discriminate |].
  destruct (Ascii.eqb c sep) eqn:E.
  - destruct (split sep s) as [| p ps] eqn:Es; [exfalso; exact (split_nonempty sep s Es) |].
    exists EmptyString, p, ps. reflexivity.
  - simpl in H. destruct (IH H) as (a & b & rest & ->). exists (String c a), b, rest.
    reflexivity.
Qed.

(** [sep.join(s.split(sep)) == s], and no piece contains [sep]. *)
Lemma split_join (sep : ascii) (s : string) :
  String.concat (String sep EmptyString) (split sep s) = s /\
  Forall (fun p => contains sep p = false) (split sep s).
Proof.
  induction s as [| c s [IHj IHf]]; simpl; [split; [reflexivity | repeat constructor] |].
  destruct (Ascii.eqb c sep) eqn:E.
  - apply Ascii.eqb_eq in E. subst c.
    destruct (split sep s) as [| p ps] eqn:Es; [exfalso; exact (split_nonempty sep s Es) |].
    split; [| constructor; [reflexivity | exact IHf]].
    transitivity (String sep (String.concat (String sep EmptyString) (p :: ps)));
      [reflexivity | rewrite IHj; reflexivity].
  - destruct (split sep s) as [| p ps] eqn:Es; [exfalso; exact (split_nonempty sep s Es) |].
    apply Forall_cons_iff in IHf as [Hp Hps].
    split; [| constructor; [simpl; rewrite E, Hp; reflexivity | exact Hps]].
    transitivity (String c (String.concat (String sep EmptyString) (p :: ps)));
      [destruct ps; reflexivity | rewrite IHj; reflexivity].
Qed.

Lemma append_empty_r (s : string) : (s ++ EmptyString)%string = s.
Proof. induction s as [| c s IH]; simpl; [reflexivity | rewrite IH; reflexivity]. Qed.

Lemma replace_facts (old new : ascii) (s : string) :
  old <> new ->
  contains old (replace old new s) = false /\ String.length (replace old new s) = String.length s.
Proof.
  intro Hne. induction s as [| c s [IH1 IH2]]; simpl; [split; reflexivity |].
  rewrite IH1, IH2. split; [| reflexivity]. rewrite Bool.orb_false_r.
  destruct (Ascii.eqb c old) eqn:E.
  - apply Ascii.eqb_neq. congruence.
  - exact E.
Qed.

(** [create_enhanced_map]'s [date_parts[1]] raises [IndexError] exactly when
    the file name contains no ['_'], and that is the only way the date and
    time parsing fails. *)
Theorem parse_file_name_error (file_name : string) :
  (forall e, parse_file_name file_name = Err e -> e = IndexError) /\
  (parse_file_name file_name = Err IndexError <-> contains "_"%char file_name = false).
Proof.
  unfold parse_file_name.
  destruct (contains "_"%char file_name) eqn:E.
  - destruct (split_has_sep _ _ E) as (a & b & rest & ->).
    split; [intros e H; discriminate H |]. split; intro H; discriminate H.
  - rewrite (split_no_sep _ _ E).
    split; [intros e H; injection H as <-; reflexivity |]. split; reflexivity.
Qed.

(** On success, [date_str] is the part of the file name before its first
    ['_'] and [time_str] is the part between the first and the second ['_']
    (or the end) with every ['-'] turned into [':']: the name is
    [date_str + '_' + part1 + rest] where neither [date_str] nor [part1]
    contains ['_'], [rest] is empty or starts with ['_'], and [time_str] has
    the length of [part1] and no ['-'] left. *)
Theorem parse_file_name_ok (file_name date_str time_str : string) :
  parse_file_name file_name = Ok (date_str, time_str) ->
  exists part1 rest,
    file_name = (date_str ++ String "_" (part1 ++ rest))%string /\
    contains "_"%char date_str = false /\ contains "_"%char part1 = false /\
    (rest = EmptyString \/ exists r, rest = String "_"%char r) /\
    time_str = replace "-"%char ":"%char part1 /\
    contains "-"%char time_str = false /\ String.length time_str = String.length part1.
Proof.
  unfold parse_file_name. destruct (split_join "_"%char file_name) as [Hj Hf].
  destruct (split "_"%char file_name) as [| a [| b rest]]; intro H; try discriminate H.
  injection H as <- <-.
  apply Forall_cons_iff in Hf as [Ha Hbr]. apply Forall_cons_iff in Hbr as [Hb _].
  destruct (replace_facts "-"%char ":"%char b) as [R1 R2]; [discriminate |].
  destruct rest as [| r rs].
  - exists b, EmptyString. rewrite <- Hj. simpl. rewrite append_empty_r.
    repeat split; auto.
  - exists b, (String "_" (String.concat (String "_" EmptyString) (r :: rs))).
    rewrite <- Hj at 1. simpl. repeat split; eauto.
Qed.

Lemma parse_file_name_ok_witness :
  parse_file_name file_name_sample = Ok ("2024-05-01", "12:30:00")%string /\
  exists part1 rest,
    file_name_sample = ("2024-05-01" ++ String "_" (part1 ++ rest))%string /\
    contains "_"%char "2024-05-01"%string = false /\ contains "_"%char part1 = false /\
    (rest = EmptyString \/ exists r, rest = String "_"%char r) /\
    "12:30:00"%string = replace "-"%char ":"%char part1 /\
    contains "-"%char "12:30:00"%string = false /\
    String.length "12:30:00"%string = String.length part1.
Proof.
  assert (H : parse_file_name file_name_sample = Ok ("2024-05-01", "12:30:00")%string)
    by (vm_compute; reflexivity).
  split; [exact H |].
  exact (parse_file_name_ok file_name_sample "2024-05-01" "12:30:00" H).
Defined.

End FileNameExtra.

Module TrackExtra.
Import Divergence.

Lemma nth_skipn0 {A} (k : nat) (l : list A) (d : A) : nth 0 (skipn k l) d = nth k l d.
Proof.
  revert l. induction k as [| k IH]; intros [| a l]; simpl; try reflexivity. apply IH.
Qed.

Lemma last_default {A} (a : A) (l : list A) (d d' : A) : last (a :: l) d = last (a :: l) d'.
Proof.
  revert a. induction l as [| b l IH]; intro a; [reflexivity |].
  change (last (a :: b :: l) d) with (last (b :: l) d).
  change (last (a :: b :: l) d') with (last (b :: l) d'). apply IH.
Qed.

Lemma last_skipn {A} (k : nat) (l : list A) (d : A) :
  (k < length l)%nat -> last (skipn k l) d = last l d.
Proof.
  revert l. induction k as [| k IH]; intros l Hk; [reflexivity |].
  destruct l as [| a l]; simpl in Hk; [lia |].
  simpl skipn. rewrite IH by lia.
  destruct l as [| b l]; [simpl in Hk; lia | reflexivity].
Qed.

Lemma last_combine {A B} (l1 : list A) (l2 : list B) (d1 : A) (d2 : B) :
  length l1 = length l2 -> last (combine l1 l2) (d1, d2) = (last l1 d1, last l2 d2).
Proof.
  revert l2. induction l1 as [| a l1 IH]; intros [| b l2] Hl; simpl in Hl; try lia;
    [reflexivity |].
  destruct l1 as [| a' l1]; destruct l2 as [| b' l2]; simpl in Hl; try lia; [reflexivity |].
  change (last (combine (a :: a' :: l1) (b :: b' :: l2)) (d1, d2))
    with (last (combine (a' :: l1) (b' :: l2)) (d1, d2)).
  rewrite IH by (simpl; lia). reflexivity.
Qed.

Lemma validate_location_ok (p : float * float) :
  location_ok p = true -> validate_location p = Ok p.
Proof. intro H. unfold validate_location. rewrite H. reflexivity. Qed.

Lemma validate_each_ok (ps : list (float * float)) :
  forallb location_ok ps = true -> validate_each ps = Ok ps.
Proof.
  induction ps as [| p ps IH]; intro H; [reflexivity |].
  simpl in H. apply andb_prop in H as [Hp Hps]. simpl.
  rewrite (validate_location_ok p Hp). cbn [bind]. rewrite (IH Hps). reflexivity.
Qed.

Lemma validate_each_err (ps : list (float * float)) :
  forallb location_ok ps = false -> validate_each ps = Err nan_location_error.
Proof.
  induction ps as [| p ps IH]; intro H; [discriminate H |].
  simpl in H. simpl. unfold validate_location.
  destruct (location_ok p); cbn [bind andb] in H |- *; [rewrite (IH H) |]; reflexivity.
Qed.

Lemma last_in {A} (a : A) (l : list A) : In (last (a :: l) a) (a :: l).
Proof.
  revert a. induction l as [| b l IH]; intro a; [left; reflexivity |].
  change (last (a :: b :: l) a) with (last (b :: l) a).
  rewrite (last_default b l a b). right. apply IH.
Qed.

(** The GPS part of [create_enhanced_map], for latitude and longitude series
    of one length. An empty series stops it with [ZeroDivisionError] (the map
    centre divides by [len(latitudes)]), and nothing else does. Otherwise the
    filter removes [k <= 10] leading points (fewer than there are), and the
    run fails with [ValueError] exactly when the map centre or one of the
    kept points has a NaN coordinate (folium's location check). When it does
    not fail, [coords] pairs the two series after the removed prefix,
    [gps_points + removed_points] is the number of raw points, the start
    marker is the first kept point and the end marker is the last raw point. *)
Theorem gps_track_of_spec (raw_latitudes raw_longitudes : list float) :
  length raw_latitudes = length raw_longitudes ->
  (gps_track_of raw_latitudes raw_longitudes = inl ZeroDivisionError <-> raw_latitudes = []) /\
  (raw_latitudes <> [] ->
   exists k clat clon,
     (k <= 10)%nat /\ (k < length raw_latitudes)%nat /\
     py_mean (skipn k raw_latitudes) = Some clat /\
     py_mean (skipn k raw_longitudes) = Some clon /\
     let cs := combine (skipn k raw_latitudes) (skipn k raw_longitudes) in
     if forallb location_ok ((clat, clon) :: cs) then
       exists tr, gps_track_of raw_latitudes raw_longitudes = inr tr /\
         coords tr = cs /\ center_lat tr = clat /\ center_lon tr = clon /\
         (gps_points tr + removed_points tr = length raw_latitudes)%nat /\
         removed_points tr = k /\
         start_marker tr = (nth k raw_latitudes 0%float, nth k raw_longitudes 0%float) /\
         end_marker tr = (last raw_latitudes 0%float, last raw_longitudes 0%float)
     else gps_track_of raw_latitudes raw_longitudes = inl (PyErr nan_location_error)).
Proof.
  intro Hl.
  destruct (DivergenceFacts.spec_filter_shape raw_latitudes raw_longitudes 10) as (k & E & Hk).
  assert (F : filter_diverging_gps_points raw_latitudes raw_longitudes 10 =
              Ok (skipn k raw_latitudes, skipn k raw_longitudes, k))
    by (rewrite DivergenceFacts.filter_refines_spec by exact Hl; rewrite E; reflexivity).
  destruct raw_latitudes as [| a la].
  - destruct raw_longitudes as [| b lb]; [| simpl in Hl; lia].
    unfold gps_track_of. rewrite F, !skipn_nil. simpl.
    split; [split; reflexivity | intro H; exfalso; apply H; reflexivity].
  - assert (Hkn : (k < length (a :: la))%nat) by (cbn [length] in Hk |- *; lia).
    assert (Main : exists clat clon,
      py_mean (skipn k (a :: la)) = Some clat /\ py_mean (skipn k raw_longitudes) = Some clon /\
      let cs := combine (skipn k (a :: la)) (skipn k raw_longitudes) in
      if forallb location_ok ((clat, clon) :: cs) then
        exists tr, gps_track_of (a :: la) raw_longitudes = inr tr /\
          coords tr = cs /\ center_lat tr = clat /\ center_lon tr = clon /\
          (gps_points tr + removed_points tr = length (a :: la))%nat /\
          removed_points tr = k /\
          start_marker tr = (nth k (a :: la) 0%float, nth k raw_longitudes 0%float) /\
          end_marker tr = (last (a :: la) 0%float, last raw_longitudes 0%float)
      else gps_track_of (a :: la) raw_longitudes = inl (PyErr nan_location_error)).
    { unfold gps_track_of. rewrite F. cbv zeta.
      assert (Lxy : length (skipn k (a :: la)) = length (skipn k raw_longitudes))
        by (rewrite !length_skipn, <- Hl; reflexivity).
      assert (Lc : length (combine (skipn k (a :: la)) (skipn k raw_longitudes)) =
                   (length (a :: la) - k)%nat)
        by (rewrite length_combine, <- Lxy, length_skipn; lia).
      assert (Nx : nth k (a :: la) 0%float = nth 0 (skipn k (a :: la)) 0%float)
        by (symmetry; apply nth_skipn0).
      assert (Ny : nth k raw_longitudes 0%float = nth 0 (skipn k raw_longitudes) 0%float)
        by (symmetry; apply nth_skipn0).
      assert (Lx : last (a :: la) 0%float = last (skipn k (a :: la)) 0%float)
        by (symmetry; apply last_skipn; exact Hkn).
      assert (Ly : last raw_longitudes 0%float = last (skipn k raw_longitudes) 0%float)
        by (symmetry; apply last_skipn; rewrite <- Hl; exact Hkn).
      rewrite Nx, Ny, Lx, Ly.
      replace (length (a :: la)) with
        (length (combine (skipn k (a :: la)) (skipn k raw_longitudes)) + k)%nat by lia.
      clear Nx Ny Lx Ly Lc.
      destruct (skipn k (a :: la)) as [| x xs] eqn:Sx.
      { apply (f_equal (@length float)) in Sx. rewrite length_skipn in Sx.
        cbn [length] in Sx, Hkn. lia. }
      destruct (skipn k raw_longitudes) as [| y ys] eqn:Sy; [simpl in Lxy; lia |].
      cbn [py_mean combine].
      eexists; eexists. split; [reflexivity |]. split; [reflexivity |].
      set (clat := (fold_left add (x :: xs) 0 / Py.float_of_nat (length (x :: xs)))%float).
      set (clon := (fold_left add (y :: ys) 0 / Py.float_of_nat (length (y :: ys)))%float).
      set (cs := (x, y) :: combine xs ys).
      change (forallb location_ok ((clat, clon) :: cs))
        with (location_ok (clat, clon) && forallb location_ok cs).
      destruct (location_ok (clat, clon)) eqn:Hc; cbn [andb];
        [rewrite (validate_location_ok _ Hc) | unfold validate_location; rewrite Hc; reflexivity].
      destruct (forallb location_ok cs) eqn:Hcs.
      - unfold validate_locations. unfold cs at 1. rewrite (validate_each_ok cs Hcs).
        assert (Hin : forall p, In p cs -> validate_location p = Ok p).
        { intros p Hp. apply validate_location_ok.
          exact (proj1 (forallb_forall location_ok cs) Hcs p Hp). }
        unfold cs at 1.
        rewrite (Hin (x, y) (or_introl eq_refl)), (Hin _ (last_in (x, y) (combine xs ys))).
        eexists. split; [reflexivity |]. cbn [coords center_lat center_lon gps_points
          removed_points start_marker end_marker].
        split; [reflexivity |]. split; [reflexivity |]. split; [reflexivity |].
        split; [reflexivity |]. split; [reflexivity |]. split; [reflexivity |].
        change cs with (combine (x :: xs) (y :: ys)).
        rewrite last_combine by exact Lxy.
        f_equal; apply last_default.
      - unfold validate_locations. unfold cs at 1.
        rewrite (validate_each_err cs Hcs). reflexivity. }
    split.
    + split; [| intro H; discriminate H]. intro H. exfalso.
      destruct Main as (clat & clon & _ & _ & M). cbv zeta in M.
      destruct (forallb location_ok _) in M.
      * destruct M as (tr & M & _). rewrite M in H. discriminate H.
      * rewrite M in H. discriminate H.
    + intros _. destruct Main as (clat & clon & M1 & M2 & M).
      exists k, clat, clon. split; [cbn [length] in Hk; lia |]. split; [exact Hkn |].
      split; [exact M1 |]. split; [exact M2 | exact M].
Qed.

Lemma gps_track_of_spec_witness :
  length lat_three_outliers = length (fixed_lon lat_three_outliers) /\
  (gps_track_of lat_three_outliers (fixed_lon lat_three_outliers) = inl ZeroDivisionError <->
   lat_three_outliers = []) /\
  (lat_three_outliers <> [] ->
   exists k clat clon,
     (k <= 10)%nat /\ (k < length lat_three_outliers)%nat /\
     py_mean (skipn k lat_three_outliers) = Some clat /\
     py_mean (skipn k (fixed_lon lat_three_outliers)) = Some clon /\
     let cs := combine (skipn k lat_three_outliers) (skipn k (fixed_lon lat_three_outliers)) in
     if forallb location_ok ((clat, clon) :: cs) then
       exists tr, gps_track_of lat_three_outliers (fixed_lon lat_three_outliers) = inr tr /\
         coords tr = cs /\ center_lat tr = clat /\ center_lon tr = clon /\
         (gps_points tr + removed_points tr = length lat_three_outliers)%nat /\
         removed_points tr = k /\
         start_marker tr = (nth k lat_three_outliers 0%float,
                            nth k (fixed_lon lat_three_outliers) 0%float) /\
         end_marker tr = (last lat_three_outliers 0%float,
                          last (fixed_lon lat_three_outliers) 0%float)
     else gps_track_of lat_three_outliers (fixed_lon lat_three_outliers) =
          inl (PyErr nan_location_error)).
Proof.
  assert (H : length lat_three_outliers = length (fixed_lon lat_three_outliers)) by reflexivity.
  split; [exact H |].
  exact (gps_track_of_spec lat_three_outliers (fixed_lon lat_three_outliers) H).
Defined.

End TrackExtra.

Module DivergenceTailExtra.
Import Divergence.

Lemma spec_distances_app (latitudes longitudes extra_lat extra_lon : list float) (k : nat) :
  (k < length latitudes)%nat -> (k < length longitudes)%nat ->
  spec_distances (latitudes ++ extra_lat) (longitudes ++ extra_lon) k =
  spec_distances latitudes longitudes k.
Proof.
  intros H1 H2. unfold spec_distances. apply map_ext_in. intros i Hi. apply in_seq in Hi.
  unfold spec_step_distance. rewrite !app_nth1 by lia. reflexivity.
Qed.

(** [filter_diverging_gps_points] reads only the first
    [max_points_to_check + 1] points: when the series have at least that many,
    appending further points (to both, equally many) changes neither the
    number of points removed nor which ones, and the appended points are all
    kept. *)
Theorem filter_ignores_tail (latitudes longitudes extra_lat extra_lon : list float)
    (max_points_to_check : nat) :
  length latitudes = length longitudes -> length extra_lat = length extra_lon ->
  (max_points_to_check + 1 <= length latitudes)%nat ->
  exists k,
    filter_diverging_gps_points latitudes longitudes max_points_to_check =
      Ok (skipn k latitudes, skipn k longitudes, k) /\
    filter_diverging_gps_points (latitudes ++ extra_lat) (longitudes ++ extra_lon)
        max_points_to_check =
      Ok (skipn k latitudes ++ extra_lat, skipn k longitudes ++ extra_lon, k).
Proof.
  intros Hl He Hm.
  rewrite !DivergenceFacts.filter_refines_spec by (rewrite ?length_app; lia).
  unfold spec_filter. rewrite !length_app.
  replace (Nat.ltb (length latitudes) max_points_to_check) with false
    by (symmetry; apply Nat.ltb_ge; lia).
  replace (Nat.ltb (length latitudes + length extra_lat) max_points_to_check) with false
    by (symmetry; apply Nat.ltb_ge; lia).
  replace (Nat.min max_points_to_check (length latitudes - 1)) with max_points_to_check
    by lia.
  replace (Nat.min max_points_to_check (length latitudes + length extra_lat - 1))
    with max_points_to_check by lia.
  rewrite spec_distances_app by lia.
  set (ds := spec_distances latitudes longitudes max_points_to_check).
  assert (Lds : length ds = max_points_to_check) by apply DivergenceFacts.spec_distances_length.
  destruct (Nat.ltb (length ds) 3).
  - exists 0%nat. split; reflexivity.
  - cbv zeta. set (k := leading_run (2 * median ds)%float ds).
    assert (Hk : (k <= length ds)%nat) by apply DivergenceFacts.leading_run_le.
    exists k. split; [reflexivity |]. rewrite !skipn_app.
    replace (k - length latitudes)%nat with 0%nat by lia.
    replace (k - length longitudes)%nat with 0%nat by lia. reflexivity.
Qed.

Lemma filter_ignores_tail_witness :
  length lat_shifting_median = length (fixed_lon lat_shifting_median) /\
  length [30; 40]%float = length [0; 0]%float /\
  (10 + 1 <= length lat_shifting_median)%nat /\
  exists k,
    filter_diverging_gps_points lat_shifting_median (fixed_lon lat_shifting_median) 10 =
      Ok (skipn k lat_shifting_median, skipn k (fixed_lon lat_shifting_median), k) /\
    filter_diverging_gps_points (lat_shifting_median ++ [30; 40]%float)
        (fixed_lon lat_shifting_median ++ [0; 0]%float) 10 =
      Ok (skipn k lat_shifting_median ++ [30; 40]%float,
          skipn k (fixed_lon lat_shifting_median) ++ [0; 0]%float, k).
Proof.
  assert (H1 : length lat_shifting_median = length (fixed_lon lat_shifting_median))
    by reflexivity.
  assert (H2 : length [30; 40]%float = length [0; 0]%float) by reflexivity.
  assert (H3 : (10 + 1 <= length lat_shifting_median)%nat) by (vm_compute; lia).
  split; [exact H1 | split; [exact H2 | split; [exact H3 |]]].
  exact (filter_ignores_tail lat_shifting_median (fixed_lon lat_shifting_median)
           [30; 40]%float [0; 0]%float 10 H1 H2 H3).
Defined.

End DivergenceTailExtra.

